(** * Offer/response workflow of the TMS backend

    A shallow embedding of the tendering service
    ([carriers/services/tendering.service.ts]), the dispatch service
    ([dispatch/dispatch.service.ts]) and the inbound SMS webhook
    ([dispatch/webhooks.controller.ts]).

    Conventions of the embedding
    - a database table is a finite map from the primary key (a uuid string)
      to the row; [queryRunner.manager.update(E, id, patch)] is [alter], the
      criteria form [update(E, {..}, patch)] is a map over all rows;
    - a [Date] is its time value in milliseconds ([Z]); every [new Date()] of
      one service call reads the same instant [now];
    - a nullable column is an [option]; a patch entry whose value is
      [undefined] leaves the column as it is (TypeORM skips it);
    - an enum member or an entity property that the source does not declare
      is [undefined] where the code reads it;
    - a service method is a computation in the monad [Tx] (state plus
      exceptions); [transaction] is the try/commit/catch/rollback frame that
      every public method wraps around its body;
    - a JavaScript string is a [string] of code units below 256. *)

From stdpp Require Import gmap strings list fin_maps.
From Stdlib Require Import ZArith String Ascii.

Local Open Scope string_scope.
Local Open Scope Z_scope.

(** ** Entities *)

Module Entities.

(** [TenderStatus] of load-tender.entity.ts. *)
Inductive TenderStatus :=
| OFFERED | ACCEPTED | REJECTED | EXPIRED | CANCELLED | WITHDRAWN.

(** [ShipmentStatus] of shipment.entity.ts.  The enum has no DISPATCHED and
    no CONFIRMED member. *)
Inductive ShipmentStatus :=
| QUOTE | TENDERED | BOOKED | IN_TRANSIT | DELIVERED | SHIPMENT_CANCELLED.

(** [DriverStatus] of driver.entity.ts. *)
Inductive DriverStatus :=
| ACTIVE | INACTIVE | ON_LOAD | OFF_DUTY | SICK | VACATION.

(** [DispatchStatus] of dispatch-assignment.entity.ts. *)
Inductive DispatchStatus :=
| DISPATCHED | CONFIRMED | DISPATCH_REJECTED | COMPLETED | DISPATCH_CANCELLED.

Inductive DispatchType := PRIMARY | BACKUP | EMERGENCY.

#[global] Instance TenderStatus_eq_dec : EqDecision TenderStatus.
Proof. solve_decision. Defined.
#[global] Instance ShipmentStatus_eq_dec : EqDecision ShipmentStatus.
Proof. solve_decision. Defined.
#[global] Instance DriverStatus_eq_dec : EqDecision DriverStatus.
Proof. solve_decision. Defined.
#[global] Instance DispatchStatus_eq_dec : EqDecision DispatchStatus.
Proof. solve_decision. Defined.

(** The string value each enum member is stored as. *)
Definition ShipmentStatus_value (s : ShipmentStatus) : string :=
  match s with
  | QUOTE => "QUOTE" | TENDERED => "TENDERED" | BOOKED => "BOOKED"
  | IN_TRANSIT => "IN_TRANSIT" | DELIVERED => "DELIVERED"
  | SHIPMENT_CANCELLED => "CANCELLED"
  end.

Definition DispatchStatus_value (s : DispatchStatus) : string :=
  match s with
  | DISPATCHED => "DISPATCHED" | CONFIRMED => "CONFIRMED"
  | DISPATCH_REJECTED => "REJECTED" | COMPLETED => "COMPLETED"
  | DISPATCH_CANCELLED => "CANCELLED"
  end.

(** The authenticated caller ([User] of @tms-platform/types). *)
Record User := {
  user_id : string;
  user_email : string;
  user_firstName : string;
  user_lastName : string;
  user_companyId : string;
}.

(** One element of [LoadTenderEntity.auditTrail]. *)
Record AuditEntry := {
  action : string;
  timestamp : Z;
  userId : option string;
  notes : option string;
}.

(** The [carrierResponse] json of a tender. *)
Record CarrierResponse := {
  cr_action : string;
  cr_timestamp : Z;
  cr_userId : string;
  cr_reason : option string;
}.

Record LoadTenderEntity := {
  tender_id : string;
  tender_shipmentId : string;
  tender_carrierId : string;
  tender_status : TenderStatus;
  offerExpiryDate : option Z;
  responseDate : option Z;
  responseNotes : option string;
  carrierResponse : option CarrierResponse;
  acceptedDate : option Z;
  acceptedById : option string;
  rejectedDate : option Z;
  rejectedById : option string;
  cancelledDate : option Z;
  cancelledById : option string;
  cancellationReason : option string;
  auditTrail : option (list AuditEntry);
}.

Record ShipmentEntity := {
  shipment_id : string;
  shipment_tenantId : string;
  shipment_status : ShipmentStatus;
  shipment_carrierId : option string;
  assignedDriverId : option string;
  updatedById : option string;
}.

(** The [medicalCertificate] json of a driver; [expirationDate] is the time
    value of the field when it is present and truthy. *)
Record MedicalCertificate := {
  expirationDate : option Z;
}.

Record DriverEntity := {
  driver_id : string;
  driver_firstName : string;
  driver_lastName : string;
  phoneNumber : string;
  licenseExpirationDate : option Z;
  driver_status : DriverStatus;
  medicalCertificate : option MedicalCertificate;
  lastDispatchDate : option Z;
  completedLoads : Z;
  isActive : bool;
}.

(** One element of [DispatchAssignmentEntity.communicationLog]. *)
Inductive CommunicationLogEntry :=
| SMS_SENT (at_ : Z) (recipient : string) (status : string)
| SMS_RESPONSE (at_ : Z) (response : string) (processedBy : string)
    (status : string).

Record DispatchDetails := {
  scheduledFor : option Z;
  dispatcherName : string;
  dispatcherId : string;
}.

Record ResponseDetails := {
  responseType : string;
  rd_timestamp : Z;
  rd_processedBy : string;
}.

Record DispatchAssignmentEntity := {
  assignment_id : string;
  assignment_tenantId : string;
  assignment_shipmentId : string;
  assignment_driverId : string;
  assignment_status : DispatchStatus;
  dispatchType : DispatchType;
  sentAt : option Z;
  confirmedAt : option Z;
  rejectedAt : option Z;
  dispatchMessage : string;
  dispatchDetails : option DispatchDetails;
  responseDetails : option ResponseDetails;
  communicationLog : option (list CommunicationLogEntry);
}.

(** The relational store: one table per repository the services use. *)
Record Store := {
  tenders : gmap string LoadTenderEntity;
  shipments : gmap string ShipmentEntity;
  drivers : gmap string DriverEntity;
  assignments : gmap string DispatchAssignmentEntity;
}.

End Entities.
Export Entities.

(** ** Transactions *)

Module Tx.

(** The exceptions the services raise.  [TypeError] is the runtime error of
    reading a property of [null]. *)
Inductive Exception :=
| NotFoundException (message : string)
| BadRequestException (message : string)
| TypeError (message : string).

Definition error_message (e : Exception) : string :=
  match e with
  | NotFoundException m | BadRequestException m | TypeError m => m
  end.

(** A computation that reads and writes the store and may raise. *)
Definition Tx (A : Type) : Type := Store → Exception + (A * Store).

Definition ret {A} (a : A) : Tx A := λ db, inr (a, db).

Definition bind {A B} (m : Tx A) (k : A → Tx B) : Tx B :=
  λ db, match m db with
        | inl e => inl e
        | inr (a, db') => k a db'
        end.

Definition throw {A} (e : Exception) : Tx A := λ _, inl e.

Definition query {A} (f : Store → A) : Tx A := λ db, inr (f db, db).

Definition write (f : Store → Store) : Tx unit := λ db, inr (tt, f db).

(** [if (c) throw e;] *)
Definition throw_if (c : bool) (e : Exception) : Tx unit :=
  if c then throw e else ret tt.

(** The frame of every public method:
    [startTransaction; try { body; commit } catch { rollback; throw }]. *)
Definition transaction {A} (body : Tx A) (db : Store)
  : (Exception + A) * Store :=
  match body db with
  | inl e => (inl e, db)
  | inr (a, db') => (inr a, db')
  end.

End Tx.
Export Tx.

#[global] Instance Tx_ret : MRet Tx := @ret.
#[global] Instance Tx_bind : MBind Tx := λ A B k m, bind m k.

(** Table updates. *)
Definition update_tender (id : string) (f : LoadTenderEntity → LoadTenderEntity)
  : Tx unit :=
  write (λ db, {| tenders := alter f id (tenders db);
                  shipments := shipments db;
                  drivers := drivers db;
                  assignments := assignments db |}).

Definition update_tenders_where (p : LoadTenderEntity → bool)
    (f : LoadTenderEntity → LoadTenderEntity) : Tx unit :=
  write (λ db, {| tenders := (λ t, if p t then f t else t) <$> tenders db;
                  shipments := shipments db;
                  drivers := drivers db;
                  assignments := assignments db |}).

Definition update_shipment (id : string) (f : ShipmentEntity → ShipmentEntity)
  : Tx unit :=
  write (λ db, {| tenders := tenders db;
                  shipments := alter f id (shipments db);
                  drivers := drivers db;
                  assignments := assignments db |}).

Definition update_driver (id : string) (f : DriverEntity → DriverEntity)
  : Tx unit :=
  write (λ db, {| tenders := tenders db;
                  shipments := shipments db;
                  drivers := alter f id (drivers db);
                  assignments := assignments db |}).

Definition update_assignment (id : string)
    (f : DispatchAssignmentEntity → DispatchAssignmentEntity) : Tx unit :=
  write (λ db, {| tenders := tenders db;
                  shipments := shipments db;
                  drivers := drivers db;
                  assignments := alter f id (assignments db) |}).

Definition save_assignment (a : DispatchAssignmentEntity)
  : Tx DispatchAssignmentEntity :=
  λ db, inr (a, {| tenders := tenders db;
                   shipments := shipments db;
                   drivers := drivers db;
                   assignments := <[assignment_id a := a]> (assignments db) |}).

(** [new Date() > d] for a nullable timestamp column: [null] converts to 0. *)
Definition date_after (now : Z) (d : option Z) : bool :=
  match d with
  | Some t => t <? now
  | None => 0 <? now
  end.

(** [x || []] *)
Definition or_empty {A} (l : option (list A)) : list A := default [] l.

(** ** Tendering service *)

Module TenderingService.

Record TenderResponse := {
  success : bool;
  tender : LoadTenderEntity;
  message : string;
  nextActions : option (list string);
}.

Definition set_tender_status (s : TenderStatus) (t : LoadTenderEntity)
  : LoadTenderEntity :=
  {| tender_id := tender_id t;
     tender_shipmentId := tender_shipmentId t;
     tender_carrierId := tender_carrierId t;
     tender_status := s;
     offerExpiryDate := offerExpiryDate t;
     responseDate := responseDate t;
     responseNotes := responseNotes t;
     carrierResponse := carrierResponse t;
     acceptedDate := acceptedDate t;
     acceptedById := acceptedById t;
     rejectedDate := rejectedDate t;
     rejectedById := rejectedById t;
     cancelledDate := cancelledDate t;
     cancelledById := cancelledById t;
     cancellationReason := cancellationReason t;
     auditTrail := auditTrail t |}.

(** [findTenderForResponse]: [findOne({ where: { id, carrierId } })]. *)
Definition findTenderForResponse (tenderId carrierId : string)
  : Tx LoadTenderEntity :=
  found ← query (λ db, tenders db !! tenderId);
  match found with
  | Some t =>
      if bool_decide (tender_carrierId t = carrierId) then mret t
      else throw (NotFoundException "Tender not found")
  | None => throw (NotFoundException "Tender not found")
  end.

(** The patch [acceptTender] writes to the accepted tender; [t] is the row
    read before the update. *)
Definition accept_patch (t : LoadTenderEntity) (now : Z) (user : User)
    (row : LoadTenderEntity) : LoadTenderEntity :=
  {| tender_id := tender_id row;
     tender_shipmentId := tender_shipmentId row;
     tender_carrierId := tender_carrierId row;
     tender_status := ACCEPTED;
     offerExpiryDate := offerExpiryDate row;
     responseDate := Some now;
     responseNotes := responseNotes row;
     carrierResponse :=
       Some {| cr_action := "ACCEPTED"; cr_timestamp := now;
               cr_userId := user_id user; cr_reason := None |};
     acceptedDate := Some now;
     acceptedById := Some (user_id user);
     rejectedDate := rejectedDate row;
     rejectedById := rejectedById row;
     cancelledDate := cancelledDate row;
     cancelledById := cancelledById row;
     cancellationReason := cancellationReason row;
     auditTrail :=
       Some (or_empty (auditTrail t) ++
             [ {| action := "ACCEPTED"; timestamp := now;
                  userId := Some (user_id user);
                  notes := Some "Tender accepted by carrier" |} ])%list |}.

(** The patch [rejectOtherTenders] writes to every matching row. *)
Definition auto_cancel_patch (now : Z) (row : LoadTenderEntity)
  : LoadTenderEntity :=
  {| tender_id := tender_id row;
     tender_shipmentId := tender_shipmentId row;
     tender_carrierId := tender_carrierId row;
     tender_status := CANCELLED;
     offerExpiryDate := offerExpiryDate row;
     responseDate := responseDate row;
     responseNotes := responseNotes row;
     carrierResponse := carrierResponse row;
     acceptedDate := acceptedDate row;
     acceptedById := acceptedById row;
     rejectedDate := rejectedDate row;
     rejectedById := rejectedById row;
     cancelledDate := Some now;
     cancelledById := cancelledById row;
     cancellationReason :=
       Some "Another tender was accepted for this shipment";
     auditTrail :=
       Some [ {| action := "AUTO_CANCELLED"; timestamp := now;
                 userId := None;
                 notes :=
                   Some "Cancelled due to another tender being accepted" |} ]
  |}.

(** What [rejectOtherTenders] does to one row of the tender table. *)
Definition cascade (now : Z) (shipmentId : string) (row : LoadTenderEntity)
  : LoadTenderEntity :=
  if bool_decide (tender_shipmentId row = shipmentId)
     && bool_decide (tender_status row = OFFERED)
  then auto_cancel_patch now row
  else row.

(** [rejectOtherTenders]: the criteria are [{ shipmentId, status: OFFERED }];
    [acceptedTenderId] is not part of them. *)
Definition rejectOtherTenders (now : Z) (shipmentId acceptedTenderId : string)
  : Tx unit :=
  update_tenders_where
    (λ row, bool_decide (tender_shipmentId row = shipmentId)
            && bool_decide (tender_status row = OFFERED))
    (auto_cancel_patch now).

Definition booked_patch (t : LoadTenderEntity) (user : User)
    (s : ShipmentEntity) : ShipmentEntity :=
  {| shipment_id := shipment_id s;
     shipment_tenantId := shipment_tenantId s;
     shipment_status := BOOKED;
     shipment_carrierId := Some (tender_carrierId t);
     assignedDriverId := assignedDriverId s;
     updatedById := Some (user_id user) |}.

Definition acceptTender_body (now : Z) (tenderId carrierId : string)
    (user : User) : Tx TenderResponse :=
  t ← findTenderForResponse tenderId carrierId;
  _ ← throw_if (negb (bool_decide (tender_status t = OFFERED)))
        (BadRequestException "Tender cannot be accepted in current status");
  _ ← throw_if (date_after now (offerExpiryDate t))
        (BadRequestException "Tender has expired");
  _ ← update_tender tenderId (accept_patch t now user);
  _ ← update_shipment (tender_shipmentId t) (booked_patch t user);
  _ ← rejectOtherTenders now (tender_shipmentId t) tenderId;
  mret {| success := true;
          tender := set_tender_status ACCEPTED t;
          message := "Tender accepted successfully";
          nextActions := Some [ "Shipment is now booked";
                                "Generate BOL and documents";
                                "Schedule pickup" ] |}.

Definition acceptTender (now : Z) (tenderId carrierId : string) (user : User)
  : Store → (Exception + TenderResponse) * Store :=
  transaction (acceptTender_body now tenderId carrierId user).

(** [reason || 'No reason provided']: [undefined] and the empty string are
    falsy. *)
Definition reason_or_default (reason : option string) : string :=
  match reason with
  | Some r => if bool_decide (r = "") then "No reason provided" else r
  | None => "No reason provided"
  end.

(** The patch [rejectTender] writes; [responseNotes: reason] is skipped when
    [reason] is [undefined]. *)
Definition reject_patch (t : LoadTenderEntity) (now : Z)
    (reason : option string) (user : User) (row : LoadTenderEntity)
  : LoadTenderEntity :=
  {| tender_id := tender_id row;
     tender_shipmentId := tender_shipmentId row;
     tender_carrierId := tender_carrierId row;
     tender_status := REJECTED;
     offerExpiryDate := offerExpiryDate row;
     responseDate := Some now;
     responseNotes :=
       match reason with Some r => Some r | None => responseNotes row end;
     carrierResponse :=
       Some {| cr_action := "REJECTED"; cr_timestamp := now;
               cr_userId := user_id user; cr_reason := reason |};
     acceptedDate := acceptedDate row;
     acceptedById := acceptedById row;
     rejectedDate := Some now;
     rejectedById := Some (user_id user);
     cancelledDate := cancelledDate row;
     cancelledById := cancelledById row;
     cancellationReason := cancellationReason row;
     auditTrail :=
       Some (or_empty (auditTrail t) ++
             [ {| action := "REJECTED"; timestamp := now;
                  userId := Some (user_id user);
                  notes := Some (reason_or_default reason) |} ])%list |}.

Definition rejectTender_body (now : Z) (tenderId carrierId : string)
    (reason : option string) (user : User) : Tx TenderResponse :=
  t ← findTenderForResponse tenderId carrierId;
  _ ← throw_if (negb (bool_decide (tender_status t = OFFERED)))
        (BadRequestException "Tender cannot be rejected in current status");
  _ ← update_tender tenderId (reject_patch t now reason user);
  mret {| success := true;
          tender := set_tender_status REJECTED t;
          message := "Tender rejected";
          nextActions := None |}.

Definition rejectTender (now : Z) (tenderId carrierId : string)
    (reason : option string) (user : User)
  : Store → (Exception + TenderResponse) * Store :=
  transaction (rejectTender_body now tenderId carrierId reason user).

(** The shipment patch of [cancelTender] for an accepted tender. *)
Definition quote_patch (user : User) (s : ShipmentEntity) : ShipmentEntity :=
  {| shipment_id := shipment_id s;
     shipment_tenantId := shipment_tenantId s;
     shipment_status := QUOTE;
     shipment_carrierId := None;
     assignedDriverId := assignedDriverId s;
     updatedById := Some (user_id user) |}.

Definition cancel_patch (t : LoadTenderEntity) (now : Z) (reason : string)
    (user : User) (row : LoadTenderEntity) : LoadTenderEntity :=
  {| tender_id := tender_id row;
     tender_shipmentId := tender_shipmentId row;
     tender_carrierId := tender_carrierId row;
     tender_status := CANCELLED;
     offerExpiryDate := offerExpiryDate row;
     responseDate := responseDate row;
     responseNotes := responseNotes row;
     carrierResponse := carrierResponse row;
     acceptedDate := acceptedDate row;
     acceptedById := acceptedById row;
     rejectedDate := rejectedDate row;
     rejectedById := rejectedById row;
     cancelledDate := Some now;
     cancelledById := Some (user_id user);
     cancellationReason := Some reason;
     auditTrail :=
       Some (or_empty (auditTrail t) ++
             [ {| action := "CANCELLED"; timestamp := now;
                  userId := Some (user_id user);
                  notes := Some reason |} ])%list |}.

Definition cancelTender_body (now : Z) (tenderId reason : string)
    (user : User) : Tx TenderResponse :=
  found ← query (λ db, tenders db !! tenderId);
  match found with
  | None => throw (NotFoundException "Tender not found")
  | Some t =>
      _ ← throw_if (bool_decide (tender_status t = CANCELLED)
                    || bool_decide (tender_status t = EXPIRED))
            (BadRequestException "Tender is already cancelled or expired");
      _ ← (if bool_decide (tender_status t = ACCEPTED)
           then update_shipment (tender_shipmentId t) (quote_patch user)
           else mret tt);
      _ ← update_tender tenderId (cancel_patch t now reason user);
      mret {| success := true;
              tender := set_tender_status CANCELLED t;
              message := "Tender cancelled successfully";
              nextActions := None |}
  end.

Definition cancelTender (now : Z) (tenderId reason : string) (user : User)
  : Store → (Exception + TenderResponse) * Store :=
  transaction (cancelTender_body now tenderId reason user).

End TenderingService.

(** ** Dispatch service *)

Module DispatchService.

Record DispatchRequest := {
  req_shipmentId : string;
  req_driverId : string;
  req_message : option string;
  req_scheduledFor : option Z;
  req_dispatchType : option DispatchType;
}.

(** [SmsResult] of sms-provider.interface.ts. *)
Record SmsResult := {
  sms_success : bool;
  messageId : option string;
  sms_error : option string;
  sms_timestamp : Z;
}.

Record DispatchResponse := {
  success : bool;
  assignment : DispatchAssignmentEntity;
  message : string;
  smsResult : option SmsResult;
  nextActions : option (list string);
}.

Record DriverResponseResult := {
  dr_success : bool;
  dr_message : string;
  dr_nextActions : option (list string);
}.

(** [isDriverAvailable]. *)
Definition isDriverAvailable (now : Z) (driver : DriverEntity) : bool :=
  if negb (bool_decide (driver_status driver = ACTIVE))
     && negb (bool_decide (driver_status driver = OFF_DUTY))
  then false
  else if match licenseExpirationDate driver with
          | Some d => d <? now
          | None => false
          end
  then false
  else if match medicalCertificate driver with
          | Some mc => match expirationDate mc with
                       | Some d => d <? now
                       | None => false
                       end
          | None => false
          end
  then false
  else true.

(** [validateDriverForAssignment]. *)
Definition validateDriverForAssignment (driverId : string) (user : User)
  : Tx DriverEntity :=
  found ← query (λ db, drivers db !! driverId);
  match found with
  | None => throw (NotFoundException "Driver not found")
  | Some driver =>
      _ ← throw_if (negb (isActive driver))
            (BadRequestException "Driver is not active");
      mret driver
  end.

(** [shipment.tenders].  [ShipmentEntity] declares the relations
    shipperLocation, consigneeLocation, customer, carrier, createdBy and
    updatedBy, and no tenders: a row that [findOne] returns does not carry
    the property, and reading it gives [undefined]. *)
Definition shipment_tenders (shipment : ShipmentEntity)
  : option (list LoadTenderEntity) := None.

(** [shipment.tenders?.find(tender => tender.status === ACCEPTED)]. *)
Definition acceptedTender (shipment : ShipmentEntity)
  : option LoadTenderEntity :=
  match shipment_tenders shipment with
  | Some tenders =>
      List.find (λ tender, bool_decide (tender_status tender = ACCEPTED))
        tenders
  | None => None
  end.

(** [validateShipmentForDispatch]. *)
Definition validateShipmentForDispatch (shipmentId : string) (user : User)
  : Tx ShipmentEntity :=
  found ← query (λ db, shipments db !! shipmentId);
  match found with
  | None => throw (NotFoundException "Shipment not found")
  | Some shipment =>
      if negb (bool_decide (shipment_tenantId shipment = user_companyId user))
      then throw (NotFoundException "Shipment not found")
      else
        _ ← throw_if
              (negb (bool_decide (shipment_status shipment = BOOKED))
               && negb (bool_decide (shipment_status shipment = TENDERED)))
              (BadRequestException
                 ("Shipment must be BOOKED or TENDERED to dispatch. Current status: "
                  +:+ ShipmentStatus_value (shipment_status shipment)));
        match acceptedTender shipment with
        | None =>
            throw
              (BadRequestException "No accepted tender found for this shipment")
        | Some _ => mret shipment
        end
  end.

(** The duplicate check of [assignDriver]:
    [findOne({ where: { shipmentId, driverId,
                        status: [DISPATCHED, CONFIRMED] } })],
    the list of statuses read as "one of". *)
Definition has_existing_assignment (shipmentId driverId : string) (db : Store)
  : bool :=
  bool_decide
    (map_Exists (λ _ a, assignment_shipmentId a = shipmentId
                        ∧ assignment_driverId a = driverId
                        ∧ (assignment_status a = DISPATCHED
                           ∨ assignment_status a = CONFIRMED))
                (assignments db)).

Definition not_available_message (driver : DriverEntity) : string :=
  "Driver " +:+ driver_firstName driver +:+ " " +:+ driver_lastName driver
  +:+ " is not available for dispatch".

(** The shipment patch of [assignDriver].  Its [status] entry is
    [ShipmentStatus.DISPATCHED], which the enum does not define: the value
    is [undefined] and the column is not written. *)
Definition dispatched_patch (driverId : string) (user : User)
    (s : ShipmentEntity) : ShipmentEntity :=
  {| shipment_id := shipment_id s;
     shipment_tenantId := shipment_tenantId s;
     shipment_status := shipment_status s;
     shipment_carrierId := shipment_carrierId s;
     assignedDriverId := Some driverId;
     updatedById := Some (user_id user) |}.

(** The driver patch of [assignDriver]; [driver] is the row read by
    [validateDriverForAssignment]. *)
Definition on_load_patch (driver : DriverEntity) (now : Z)
    (row : DriverEntity) : DriverEntity :=
  {| driver_id := driver_id row;
     driver_firstName := driver_firstName row;
     driver_lastName := driver_lastName row;
     phoneNumber := phoneNumber row;
     licenseExpirationDate := licenseExpirationDate row;
     driver_status := ON_LOAD;
     medicalCertificate := medicalCertificate row;
     lastDispatchDate := Some now;
     completedLoads := completedLoads driver + 1;
     isActive := isActive row |}.

Section AssignDriver.

(** [buildDispatchMessage] formats dates and numbers for a locale; the
    text of the message is left open. *)
Variable buildDispatchMessage : ShipmentEntity → DriverEntity → string.

(** The SMS provider behind [sendDispatchSms], which catches every failure
    and turns it into a result. *)
Variable sendDispatchSms : DriverEntity → ShipmentEntity → string → SmsResult.

(** [Date.prototype.toISOString]. *)
Variable toISOString : Z → string.

(** The double-quote character. *)
Definition dquote : string := String "034"%char EmptyString.

(** The assignment [assignDriver] creates; [newId] is the uuid the database
    draws when the row is saved. *)
Definition new_assignment (now : Z) (newId : string)
    (dispatchRequest : DispatchRequest) (user : User)
    (shipment : ShipmentEntity) (driver : DriverEntity)
  : DispatchAssignmentEntity :=
  {| assignment_id := newId;
     assignment_tenantId := user_companyId user;
     assignment_shipmentId := req_shipmentId dispatchRequest;
     assignment_driverId := req_driverId dispatchRequest;
     assignment_status := DISPATCHED;
     dispatchType := default PRIMARY (req_dispatchType dispatchRequest);
     sentAt := Some now;
     confirmedAt := None;
     rejectedAt := None;
     dispatchMessage := buildDispatchMessage shipment driver;
     dispatchDetails :=
       Some {| scheduledFor := req_scheduledFor dispatchRequest;
               dispatcherName :=
                 user_firstName user +:+ " " +:+ user_lastName user;
               dispatcherId := user_id user |};
     responseDetails := None;
     communicationLog := Some [ SMS_SENT now (phoneNumber driver) "pending" ]
  |}.

(** [assignDriver], up to the commit. *)
Definition assignDriver_body (now : Z) (newId : string)
    (dispatchRequest : DispatchRequest) (user : User)
  : Tx (ShipmentEntity * DriverEntity * DispatchAssignmentEntity) :=
  let shipmentId := req_shipmentId dispatchRequest in
  let driverId := req_driverId dispatchRequest in
  shipment ← validateShipmentForDispatch shipmentId user;
  driver ← validateDriverForAssignment driverId user;
  _ ← throw_if (negb (isDriverAvailable now driver))
        (BadRequestException (not_available_message driver));
  existing ← query (has_existing_assignment shipmentId driverId);
  _ ← throw_if existing
        (BadRequestException "Driver is already assigned to this shipment");
  savedAssignment ← save_assignment
    (new_assignment now newId dispatchRequest user shipment driver);
  _ ← update_shipment shipmentId (dispatched_patch driverId user);
  _ ← update_driver driverId (on_load_patch driver now);
  mret (shipment, driver, savedAssignment).

(** [assignDriver].  After the commit the SMS is sent; [updateSmsLog]
    swallows its own failure and writes nothing. *)
Definition assignDriver (now : Z) (newId : string)
    (dispatchRequest : DispatchRequest) (user : User) (db : Store)
  : (Exception + DispatchResponse) * Store :=
  match transaction (assignDriver_body now newId dispatchRequest user) db with
  | (inl e, db') => (inl e, db')
  | (inr (shipment, driver, savedAssignment), db') =>
      let smsResult :=
        sendDispatchSms driver shipment (dispatchMessage savedAssignment) in
      (inr {| success := true;
              assignment := savedAssignment;
              message := "Dispatch sent to " +:+ driver_firstName driver
                         +:+ " " +:+ driver_lastName driver;
              smsResult := Some smsResult;
              nextActions :=
                Some [ "Driver will receive SMS with load details";
                       "Driver can reply " +:+ dquote +:+ "1" +:+ dquote
                       +:+ " to confirm or " +:+ dquote +:+ "2" +:+ dquote
                       +:+ " to reject";
                       "Monitor webhook for driver response";
                       "SMS expires at "
                       +:+ toISOString (now + 2 * 60 * 60 * 1000) ] |}, db')
  end.

End AssignDriver.

(** The driver patch of a confirmation; [driver] is [assignment.driver], the
    row joined when the assignment was read. *)
Definition confirm_driver_patch (driver : DriverEntity) (row : DriverEntity)
  : DriverEntity :=
  {| driver_id := driver_id row;
     driver_firstName := driver_firstName row;
     driver_lastName := driver_lastName row;
     phoneNumber := phoneNumber row;
     licenseExpirationDate := licenseExpirationDate row;
     driver_status := ON_LOAD;
     medicalCertificate := medicalCertificate row;
     lastDispatchDate := lastDispatchDate row;
     completedLoads := completedLoads driver + 1;
     isActive := isActive row |}.

Definition set_driver_status (s : DriverStatus) (row : DriverEntity)
  : DriverEntity :=
  {| driver_id := driver_id row;
     driver_firstName := driver_firstName row;
     driver_lastName := driver_lastName row;
     phoneNumber := phoneNumber row;
     licenseExpirationDate := licenseExpirationDate row;
     driver_status := s;
     medicalCertificate := medicalCertificate row;
     lastDispatchDate := lastDispatchDate row;
     completedLoads := completedLoads row;
     isActive := isActive row |}.

(** The shipment patch of a confirmation. *)
Definition confirmed_shipment_patch (user : User) (s : ShipmentEntity)
  : ShipmentEntity :=
  {| shipment_id := shipment_id s;
     shipment_tenantId := shipment_tenantId s;
     shipment_status := BOOKED;
     shipment_carrierId := shipment_carrierId s;
     assignedDriverId := assignedDriverId s;
     updatedById := Some (user_id user) |}.

(** The shipment patch of a rejection. *)
Definition rejected_shipment_patch (user : User) (s : ShipmentEntity)
  : ShipmentEntity :=
  {| shipment_id := shipment_id s;
     shipment_tenantId := shipment_tenantId s;
     shipment_status := TENDERED;
     shipment_carrierId := shipment_carrierId s;
     assignedDriverId := None;
     updatedById := Some (user_id user) |}.

(** The assignment patch at the end of [processDriverResponse]; [a] is the
    row read at the start. *)
Definition response_patch (a : DispatchAssignmentEntity) (now : Z)
    (newStatus : DispatchStatus) (response : string) (user : User)
    (row : DispatchAssignmentEntity) : DispatchAssignmentEntity :=
  {| assignment_id := assignment_id row;
     assignment_tenantId := assignment_tenantId row;
     assignment_shipmentId := assignment_shipmentId row;
     assignment_driverId := assignment_driverId row;
     assignment_status := newStatus;
     dispatchType := dispatchType row;
     sentAt := sentAt row;
     confirmedAt := if bool_decide (response = "1") then Some now else None;
     rejectedAt := if bool_decide (response = "2") then Some now else None;
     dispatchMessage := dispatchMessage row;
     dispatchDetails := dispatchDetails row;
     responseDetails :=
       Some {| responseType := response; rd_timestamp := now;
               rd_processedBy := user_id user |};
     communicationLog :=
       Some (or_empty (communicationLog a) ++
             [ SMS_RESPONSE now response (user_id user) "processed" ])%list
  |}.

(** [assignment.driver.firstName]: the joined driver, or a [TypeError] when
    the relation is [null]. *)
Definition joined_driver (driver : option DriverEntity) : Tx DriverEntity :=
  match driver with
  | Some d => mret d
  | None => throw (TypeError "Cannot read properties of null")
  end.

Definition processDriverResponse_body (now : Z) (driverId response
    assignmentId : string) (user : User) : Tx DriverResponseResult :=
  found ← query (λ db, assignments db !! assignmentId);
  match found with
  | None => throw (NotFoundException "Dispatch assignment not found")
  | Some a =>
      if negb (bool_decide (assignment_driverId a = driverId))
      then throw (NotFoundException "Dispatch assignment not found")
      else
        relation ← query (λ db, drivers db !! assignment_driverId a);
        _ ← throw_if (negb (bool_decide (assignment_status a = DISPATCHED)))
              (BadRequestException
                 ("Assignment is not in DISPATCHED status. Current status: "
                  +:+ DispatchStatus_value (assignment_status a)));
        '(newStatus, message, nextActions) ←
          (if bool_decide (response = "1") then
             driver ← joined_driver relation;
             _ ← update_driver driverId (confirm_driver_patch driver);
             _ ← update_shipment (assignment_shipmentId a)
                   (confirmed_shipment_patch user);
             mret (CONFIRMED,
                   "Driver " +:+ driver_firstName driver +:+ " "
                   +:+ driver_lastName driver +:+ " confirmed dispatch",
                   [ "Generate BOL and pickup documents";
                     "Update shipment status to IN_TRANSIT when picked up";
                     "Monitor driver location for real-time tracking" ])
           else if bool_decide (response = "2") then
             driver ← joined_driver relation;
             _ ← update_driver driverId (set_driver_status ACTIVE);
             _ ← update_shipment (assignment_shipmentId a)
                   (rejected_shipment_patch user);
             mret (DISPATCH_REJECTED,
                   "Driver " +:+ driver_firstName driver +:+ " "
                   +:+ driver_lastName driver +:+ " rejected dispatch",
                   [ "Find alternative driver for this shipment";
                     "Contact driver to understand rejection reason";
                     "Update dispatch preferences for future loads" ])
           else throw (BadRequestException "Invalid response code"));
        _ ← update_assignment assignmentId
              (response_patch a now newStatus response user);
        mret {| dr_success := true;
                dr_message := message;
                dr_nextActions := Some nextActions |}
  end.

Definition processDriverResponse (now : Z) (driverId response
    assignmentId : string) (user : User)
  : Store → (Exception + DriverResponseResult) * Store :=
  transaction (processDriverResponse_body now driverId response assignmentId
                 user).

End DispatchService.

(** ** JavaScript string operations *)

Module JsString.

(** White space and line terminators that [String.prototype.trim] strips,
    among the code units below 256. *)
Definition is_white_space (c : ascii) : bool :=
  let n := N_of_ascii c in
  ((9 <=? n) && (n <=? 13) || (n =? 32) || (n =? 160))%N.

Fixpoint trimStart (s : string) : string :=
  match s with
  | String c s' => if is_white_space c then trimStart s' else s
  | EmptyString => EmptyString
  end.

Fixpoint trimEnd (s : string) : string :=
  match s with
  | String c s' =>
      match trimEnd s' with
      | EmptyString =>
          if is_white_space c then EmptyString else String c EmptyString
      | rest => String c rest
      end
  | EmptyString => EmptyString
  end.

Definition trim (s : string) : string := trimEnd (trimStart s).

(** Lower-casing of one code unit below 256: A-Z, and the Latin-1 capitals
    U+00C0..U+00DE except the multiplication sign. *)
Definition toLowerCase_char (c : ascii) : ascii :=
  let n := N_of_ascii c in
  if ((65 <=? n) && (n <=? 90)
      || (192 <=? n) && (n <=? 222) && negb (n =? 215))%N
  then ascii_of_N (n + 32)
  else c.

Fixpoint toLowerCase (s : string) : string :=
  match s with
  | String c s' => String (toLowerCase_char c) (toLowerCase s')
  | EmptyString => EmptyString
  end.

Fixpoint startsWith (s searchString : string) {struct searchString}
  : bool :=
  match searchString, s with
  | EmptyString, _ => true
  | String c rest, String d s' => bool_decide (c = d) && startsWith s' rest
  | String _ _, EmptyString => false
  end.

Fixpoint includes (s searchString : string) : bool :=
  startsWith s searchString
  || match s with
     | String _ s' => includes s' searchString
     | EmptyString => false
     end.

(** The two shapes of regular expression the webhook uses: [/kw/i] with a
    lower-case literal [kw], and [/^kw$/]. *)
Inductive RegExp :=
| Literal_i (kw : string)
| Anchored (kw : string).

(** [pattern.test(s)]. *)
Definition test (pattern : RegExp) (s : string) : bool :=
  match pattern with
  | Literal_i kw => includes (toLowerCase s) kw
  | Anchored kw => bool_decide (s = kw)
  end.

End JsString.
Export JsString.

(** ** Inbound SMS webhook *)

Module WebhooksController.

Record SmsWebhookPayload := {
  From_ : string;
  To : string;
  Body : string;
  MessageSid : option string;
}.

Record SmsWebhookResponse := {
  success : bool;
  message : string;
  processedAt : Z;
  driverId : option string;
  assignmentId : option string;
  nextAction : option string;
}.

(** The object [parseSmsResponse] returns. *)
Record ParsedSms := {
  parsed_response : option string;
  parsed_driverId : option string;
  parsed_assignmentId : option string;
}.

Definition only_response (r : string) : ParsedSms :=
  {| parsed_response := Some r;
     parsed_driverId := None;
     parsed_assignmentId := None |}.

Definition confirmPatterns : list RegExp :=
  [ Literal_i "confirm"; Literal_i "accept"; Literal_i "yes"; Literal_i "ok";
    Anchored "1"; Literal_i "got it"; Literal_i "on my way" ].

Definition rejectPatterns : list RegExp :=
  [ Literal_i "reject"; Literal_i "decline"; Literal_i "no";
    Literal_i "can't"; Literal_i "cannot"; Anchored "2";
    Literal_i "not available"; Literal_i "busy" ].

(** [parseSmsResponse]. *)
Definition parseSmsResponse (payload : SmsWebhookPayload) : ParsedSms :=
  let body := toLowerCase (trim (Body payload)) in
  if bool_decide (body = "1") || includes (toLowerCase body) "confirm"
  then only_response "1"
  else if bool_decide (body = "2") || includes (toLowerCase body) "reject"
  then only_response "2"
  else if existsb (λ pattern, test pattern body) confirmPatterns
  then only_response "1"
  else if existsb (λ pattern, test pattern body) rejectPatterns
  then only_response "2"
  else {| parsed_response := None;
          parsed_driverId := None;
          parsed_assignmentId := None |}.

(** [getMockUserForWebhook]. *)
Definition getMockUserForWebhook : User :=
  {| user_id := "webhook-processor";
     user_email := "system@tms-platform.com";
     user_firstName := "System";
     user_lastName := "Processor";
     user_companyId := "system-tenant" |}.

(** [!x] for an optional string. *)
Definition falsy (x : option string) : bool :=
  match x with
  | Some s => bool_decide (s = "")
  | None => true
  end.

Definition failure (now : Z) (msg : string) : SmsWebhookResponse :=
  {| success := false; message := msg; processedAt := now;
     driverId := None; assignmentId := None; nextAction := None |}.

(** The body of [receiveSmsWebhook] from the destructured result of
    [parseSmsResponse] on. *)
Definition respond (now : Z) (parsed : ParsedSms) (db : Store)
  : SmsWebhookResponse * Store :=
  match parsed_response parsed with
  | None => (failure now "Unrecognized SMS response", db)
  | Some response =>
      if falsy (parsed_driverId parsed) || falsy (parsed_assignmentId parsed)
      then (failure now "Could not process SMS response - missing IDs", db)
      else
        let driver := default "" (parsed_driverId parsed) in
        let assignment := default "" (parsed_assignmentId parsed) in
        match DispatchService.processDriverResponse now driver response
                assignment getMockUserForWebhook db with
        | (inr result, db') =>
            ({| success := DispatchService.dr_success result;
                message := DispatchService.dr_message result;
                processedAt := now;
                driverId := Some driver;
                assignmentId := Some assignment;
                nextAction :=
                  head (default [] (DispatchService.dr_nextActions result))
             |}, db')
        | (inl error, db') =>
            (failure now ("Failed to process webhook: "
                          +:+ error_message error), db')
        end
  end.

(** [receiveSmsWebhook]. *)
Definition receiveSmsWebhook (now : Z) (payload : SmsWebhookPayload)
    (db : Store) : SmsWebhookResponse * Store :=
  respond now (parseSmsResponse payload) db.

(** The three outcomes of classification. *)
Inductive Intent := ACCEPT | REJECT | UNRECOGNIZED.

Definition intent_of (parsed : ParsedSms) : Intent :=
  match parsed_response parsed with
  | Some r =>
      if bool_decide (r = "1") then ACCEPT
      else if bool_decide (r = "2") then REJECT
      else UNRECOGNIZED
  | None => UNRECOGNIZED
  end.

End WebhooksController.

(** ** The offers and their transition operations, uniformly

    A tender and a dispatch assignment are the two kinds of offer; the four
    public methods that respond to an offer are its transition operations. *)

Module Workflow.

Inductive Offer :=
| Tender (id : string)
| Dispatch (id : string).

Inductive OfferStatus :=
| TenderState (s : TenderStatus)
| DispatchState (s : DispatchStatus).

Definition offer_status (db : Store) (o : Offer) : option OfferStatus :=
  match o with
  | Tender id => (λ t, TenderState (tender_status t)) <$> tenders db !! id
  | Dispatch id =>
      (λ a, DispatchState (assignment_status a)) <$> assignments db !! id
  end.

(** ACCEPTED, REJECTED, EXPIRED and CANCELLED; for an assignment ACCEPTED
    is named CONFIRMED and OFFERED is named DISPATCHED. *)
Definition is_terminal (s : OfferStatus) : bool :=
  match s with
  | TenderState (ACCEPTED | REJECTED | EXPIRED | CANCELLED) => true
  | DispatchState (CONFIRMED | DISPATCH_REJECTED | DISPATCH_CANCELLED) => true
  | _ => false
  end.

Inductive Operation :=
| AcceptTender (tenderId carrierId : string)
| RejectTender (tenderId carrierId : string) (reason : option string)
| CancelTender (tenderId reason : string)
| ProcessDriverResponse (driverId response assignmentId : string).

Definition outcome {A} (r : (Exception + A) * Store)
  : option Exception * Store :=
  match r with
  | (inl e, db) => (Some e, db)
  | (inr _, db) => (None, db)
  end.

(** One call of a transition operation: the exception it raised, if any,
    and the store it leaves. *)
Definition run (now : Z) (user : User) (op : Operation) (db : Store)
  : option Exception * Store :=
  match op with
  | AcceptTender tenderId carrierId =>
      outcome (TenderingService.acceptTender now tenderId carrierId user db)
  | RejectTender tenderId carrierId reason =>
      outcome (TenderingService.rejectTender now tenderId carrierId reason
                 user db)
  | CancelTender tenderId reason =>
      outcome (TenderingService.cancelTender now tenderId reason user db)
  | ProcessDriverResponse driverId response assignmentId =>
      outcome (DispatchService.processDriverResponse now driverId response
                 assignmentId user db)
  end.

(** The offer an operation is addressed to. *)
Definition target (op : Operation) : Offer :=
  match op with
  | AcceptTender tenderId _ | RejectTender tenderId _ _
  | CancelTender tenderId _ => Tender tenderId
  | ProcessDriverResponse _ _ assignmentId => Dispatch assignmentId
  end.

#[global] Instance Offer_eq_dec : EqDecision Offer.
Proof. solve_decision. Defined.

(** [cancelTender] refuses only CANCELLED and EXPIRED tenders: addressed to
    a tender in another state it goes through.  [cancel_applies op o s]
    says that [op] is such a call, for the offer [o] in state [s]. *)
Definition cancel_applies (op : Operation) (o : Offer) (s : OfferStatus)
  : bool :=
  bool_decide (target op = o)
  && match op, s with
     | CancelTender _ _, TenderState (CANCELLED | EXPIRED) => false
     | CancelTender _ _, TenderState _ => true
     | _, _ => false
     end.

End Workflow.

(** ** Vocabulary of the properties *)

Module Spec.

Import WebhooksController.

Definition accept_keywords : list string :=
  [ "accept"; "yes"; "ok"; "got it"; "on my way" ].

Definition reject_keywords : list string :=
  [ "decline"; "no"; "can't"; "busy"; "not available" ].

(** The classification of an inbound text as the specification words it:
    an exact digit first, then the accept family, then the reject family. *)
Definition spec_classify (text : string) : Intent :=
  let body := toLowerCase (trim text) in
  if bool_decide (body = "1") then ACCEPT
  else if bool_decide (body = "2") then REJECT
  else if existsb (includes body) ("confirm" :: accept_keywords) then ACCEPT
  else if existsb (includes body) ("reject" :: reject_keywords) then REJECT
  else UNRECOGNIZED.

(** The same rules in the order the webhook applies them: "1" or the word
    confirm, then "2" or the word reject, then the two families. *)
Definition classify (text : string) : Intent :=
  let body := toLowerCase (trim text) in
  if bool_decide (body = "1") || includes body "confirm" then ACCEPT
  else if bool_decide (body = "2") || includes body "reject" then REJECT
  else if existsb (includes body) accept_keywords then ACCEPT
  else if existsb (includes body) reject_keywords then REJECT
  else UNRECOGNIZED.

(** The four grounds on which a driver may not receive a dispatch offer, as
    the specification lists them. *)
Definition spec_ineligible (now : Z) (driver : DriverEntity) : Prop :=
  isActive driver = false
  ∨ (driver_status driver ≠ ACTIVE ∧ driver_status driver ≠ OFF_DUTY)
  ∨ (∃ d, licenseExpirationDate driver = Some d ∧ d < now)
  ∨ (∃ mc d, medicalCertificate driver = Some mc
             ∧ expirationDate mc = Some d ∧ d < now).

(** The two exceptions by which [assignDriver] turns a driver down. *)
Definition ineligibility_error (driver : DriverEntity) (e : Exception)
  : Prop :=
  e = BadRequestException "Driver is not active"
  ∨ e = BadRequestException (DispatchService.not_available_message driver).

End Spec.
Export Spec.

(** ** Sample stores *)

Module Fixtures.

Definition dispatcher : User :=
  {| user_id := "u1"; user_email := "dispatcher@example.com";
     user_firstName := "Dana"; user_lastName := "Diaz";
     user_companyId := "tenant1" |}.

Definition offered_entry : AuditEntry :=
  {| action := "OFFERED"; timestamp := 100; userId := Some "u1";
     notes := Some "Load tendered to Acme for $2500" |}.

(** A tender as [tenderLoad] creates it, in state [status]. *)
Definition tender_row (id shipmentId carrierId : string)
    (status : TenderStatus) (expiry : Z) : LoadTenderEntity :=
  {| tender_id := id; tender_shipmentId := shipmentId;
     tender_carrierId := carrierId; tender_status := status;
     offerExpiryDate := Some expiry; responseDate := None;
     responseNotes := None; carrierResponse := None; acceptedDate := None;
     acceptedById := None; rejectedDate := None; rejectedById := None;
     cancelledDate := None; cancelledById := None;
     cancellationReason := None; auditTrail := Some [ offered_entry ] |}.

Definition shipment_row (id : string) (status : ShipmentStatus)
    (driver : option string) : ShipmentEntity :=
  {| shipment_id := id; shipment_tenantId := "tenant1";
     shipment_status := status; shipment_carrierId := Some "c1";
     assignedDriverId := driver; updatedById := None |}.

Definition driver_row (id : string) (status : DriverStatus)
    (license : option Z) (loads : Z) : DriverEntity :=
  {| driver_id := id; driver_firstName := "Sam"; driver_lastName := "Lee";
     phoneNumber := "+15550100"; licenseExpirationDate := license;
     driver_status := status; medicalCertificate := None;
     lastDispatchDate := None; completedLoads := loads; isActive := true |}.

Definition assignment_row (id shipmentId driverId : string)
    (status : DispatchStatus) : DispatchAssignmentEntity :=
  {| assignment_id := id; assignment_tenantId := "tenant1";
     assignment_shipmentId := shipmentId; assignment_driverId := driverId;
     assignment_status := status; dispatchType := PRIMARY;
     sentAt := Some 100; confirmedAt := None; rejectedAt := None;
     dispatchMessage := "Dispatch Alert"; dispatchDetails := None;
     responseDetails := None;
     communicationLog := Some [ SMS_SENT 100 "+15550100" "pending" ] |}.

(** Two carriers hold an OFFERED tender for shipment s1. *)
Definition two_offers : Store :=
  {| tenders := {[ "a" := tender_row "a" "s1" "c1" OFFERED 1000;
                   "b" := tender_row "b" "s1" "c2" OFFERED 1000 ]};
     shipments := {[ "s1" := shipment_row "s1" TENDERED None ]};
     drivers := ∅;
     assignments := ∅ |}.

(** Tender a of shipment s1 is ACCEPTED and tender b is OFFERED: the
    shipment was put back to QUOTE and tendered again. *)
Definition accepted_and_offered : Store :=
  {| tenders := {[ "a" := tender_row "a" "s1" "c1" ACCEPTED 1000;
                   "b" := tender_row "b" "s1" "c2" OFFERED 1000 ]};
     shipments := {[ "s1" := shipment_row "s1" TENDERED None ]};
     drivers := ∅;
     assignments := ∅ |}.

(** Shipment s1 is booked with carrier c1; driver d1 is free. *)
Definition booked : Store :=
  {| tenders := {[ "a" := tender_row "a" "s1" "c1" ACCEPTED 1000 ]};
     shipments := {[ "s1" := shipment_row "s1" BOOKED None ]};
     drivers := {[ "d1" := driver_row "d1" ACTIVE (Some 9000) 7 ]};
     assignments := ∅ |}.

(** The same, but the license of d1 expired at 100. *)
Definition booked_lapsed : Store :=
  {| tenders := tenders booked;
     shipments := shipments booked;
     drivers := {[ "d1" := driver_row "d1" ACTIVE (Some 100) 7 ]};
     assignments := ∅ |}.

(** Driver d1 holds the only DISPATCHED assignment, for shipment s1. *)
Definition dispatched : Store :=
  {| tenders := {[ "a" := tender_row "a" "s1" "c1" ACCEPTED 1000 ]};
     shipments := {[ "s1" := shipment_row "s1" BOOKED (Some "d1") ]};
     drivers := {[ "d1" := driver_row "d1" ON_LOAD (Some 9000) 8 ]};
     assignments := {[ "x1" := assignment_row "x1" "s1" "d1" DISPATCHED ]}
  |}.

(** The assignment of d1 has been confirmed. *)
Definition confirmed : Store :=
  {| tenders := {[ "a" := tender_row "a" "s1" "c1" ACCEPTED 1000 ]};
     shipments := {[ "s1" := shipment_row "s1" BOOKED (Some "d1") ]};
     drivers := {[ "d1" := driver_row "d1" ON_LOAD (Some 9000) 9 ]};
     assignments := {[ "x1" := assignment_row "x1" "s1" "d1" CONFIRMED ]}
  |}.

Definition sms (from body : string) : WebhooksController.SmsWebhookPayload :=
  {| WebhooksController.From_ := from;
     WebhooksController.To := "+15550199";
     WebhooksController.Body := body;
     WebhooksController.MessageSid := Some "SM1" |}.

Definition dispatch_request (shipmentId driverId : string)
  : DispatchService.DispatchRequest :=
  {| DispatchService.req_shipmentId := shipmentId;
     DispatchService.req_driverId := driverId;
     DispatchService.req_message := None;
     DispatchService.req_scheduledFor := None;
     DispatchService.req_dispatchType := None |}.

(** Stand-ins for the message builder, the SMS provider and the date
    formatter. *)
Definition plain_message (_ : ShipmentEntity) (_ : DriverEntity) : string :=
  "Dispatch Alert".

Definition sms_sent (_ : DriverEntity) (_ : ShipmentEntity) (_ : string)
  : DispatchService.SmsResult :=
  {| DispatchService.sms_success := true;
     DispatchService.messageId := Some "SM0";
     DispatchService.sms_error := None;
     DispatchService.sms_timestamp := 500 |}.

Definition iso (_ : Z) : string := "1970-01-01T00:00:00.000Z".

End Fixtures.

(** ** Creating a tender *)

Module TenderCreation.

(** [CarrierStatus] of carrier.entity.ts. *)
Inductive CarrierStatus :=
| CARRIER_ACTIVE | CARRIER_INACTIVE | CARRIER_PENDING | CARRIER_SUSPENDED.

Definition CarrierStatus_value (s : CarrierStatus) : string :=
  match s with
  | CARRIER_ACTIVE => "ACTIVE" | CARRIER_INACTIVE => "INACTIVE"
  | CARRIER_PENDING => "PENDING" | CARRIER_SUSPENDED => "SUSPENDED"
  end.

#[global] Instance CarrierStatus_eq_dec : EqDecision CarrierStatus.
Proof. solve_decision. Defined.

(** The columns of [CarrierEntity] that [tenderLoad] reads. *)
Record CarrierEntity := {
  carrier_id : string;
  carrier_name : string;
  scac : string;
  carrier_email : string;
  carrier_status : CarrierStatus;
}.

(** [TenderType] of load-tender.entity.ts. *)
Inductive TenderType := TENDER_PRIMARY | TENDER_BACKUP | TENDER_SPOT.

(** [TenderRequest].  [amount] is a number; [offerExpiryHours] is a whole
    number of hours (setHours drops a fraction). *)
Record TenderRequest := {
  tr_shipmentId : string;
  tr_carrierId : string;
  amount : Z;
  offerExpiryHours : option Z;
  tenderType : option TenderType;
}.

(** [validateShipmentForTender]. *)
Definition validateShipmentForTender (shipmentId : string) (user : User)
  : Tx ShipmentEntity :=
  found ← query (λ db, shipments db !! shipmentId);
  match found with
  | None => throw (NotFoundException "Shipment not found")
  | Some shipment =>
      if negb (bool_decide (shipment_tenantId shipment = user_companyId user))
      then throw (NotFoundException "Shipment not found")
      else
        _ ← throw_if (negb (bool_decide (shipment_status shipment = QUOTE)))
              (BadRequestException
                 ("Shipment must be in QUOTE status to tender. Current status: "
                  +:+ ShipmentStatus_value (shipment_status shipment)));
        mret shipment
  end.

(** [validateCarrierForTender].  The carriers table is only read by the
    workflow; it is passed alongside the store. *)
Definition validateCarrierForTender (carriers : gmap string CarrierEntity)
    (carrierId : string) (user : User) : Tx CarrierEntity :=
  match carriers !! carrierId with
  | None => throw (NotFoundException "Carrier not found")
  | Some carrier =>
      _ ← throw_if (negb (bool_decide (carrier_status carrier = CARRIER_ACTIVE)))
            (BadRequestException
               ("Carrier must be ACTIVE to receive tenders. Current status: "
                +:+ CarrierStatus_value (carrier_status carrier)));
      mret carrier
  end.

(** The duplicate check of [tenderLoad]:
    [findOne({ where: { shipmentId, carrierId, status: OFFERED } })]. *)
Definition has_offered_tender (shipmentId carrierId : string) (db : Store)
  : bool :=
  bool_decide
    (map_Exists (λ _ t, tender_shipmentId t = shipmentId
                        ∧ tender_carrierId t = carrierId
                        ∧ tender_status t = OFFERED) (tenders db)).

(** The shipment patch of [tenderLoad]. *)
Definition tendered_patch (carrierId : string) (user : User)
    (s : ShipmentEntity) : ShipmentEntity :=
  {| shipment_id := shipment_id s;
     shipment_tenantId := shipment_tenantId s;
     shipment_status := TENDERED;
     shipment_carrierId := Some carrierId;
     assignedDriverId := assignedDriverId s;
     updatedById := Some (user_id user) |}.

(** [d.setHours(d.getHours() + h)], in a time zone without clock changes. *)
Definition addHours (t h : Z) : Z := t + h * 3600000.

Definition save_tender (t : LoadTenderEntity) : Tx LoadTenderEntity :=
  λ db, inr (t, {| tenders := <[tender_id t := t]> (tenders db);
                   shipments := shipments db;
                   drivers := drivers db;
                   assignments := assignments db |}).

Section TenderLoad.

(** How the template literal renders the amount. *)
Variable showNumber : Z → string.

(** [Date.prototype.toISOString]. *)
Variable toISOString : Z → string.

(** The tender [tenderLoad] creates; [newId] is the uuid the database draws
    when the row is saved.  The columns offerAmount, tenderType and
    tenderDetails, which no later step of the workflow reads, are not part
    of the row. *)
Definition new_tender (now : Z) (newId : string) (request : TenderRequest)
    (user : User) (carrier : CarrierEntity) : LoadTenderEntity :=
  {| tender_id := newId;
     tender_shipmentId := tr_shipmentId request;
     tender_carrierId := tr_carrierId request;
     tender_status := OFFERED;
     offerExpiryDate :=
       Some (addHours now (default 24 (offerExpiryHours request)));
     responseDate := None;
     responseNotes := None;
     carrierResponse := None;
     acceptedDate := None;
     acceptedById := None;
     rejectedDate := None;
     rejectedById := None;
     cancelledDate := None;
     cancelledById := None;
     cancellationReason := None;
     auditTrail :=
       Some [ {| action := "OFFERED"; timestamp := now;
                 userId := Some (user_id user);
                 notes := Some ("Load tendered to " +:+ carrier_name carrier
                                +:+ " for $" +:+ showNumber (amount request))
              |} ] |}.

(** The store a successful [tenderLoad] leaves. *)
Definition tendered_store (now : Z) (newId : string) (request : TenderRequest)
    (user : User) (carrier : CarrierEntity) (db : Store) : Store :=
  {| tenders :=
       <[newId := new_tender now newId request user carrier]>
         (tenders db);
     shipments :=
       alter (tendered_patch (tr_carrierId request) user)
         (tr_shipmentId request) (shipments db);
     drivers := drivers db;
     assignments := assignments db |}.

(** [tenderLoad], up to the commit. *)
Definition tenderLoad_body (carriers : gmap string CarrierEntity) (now : Z)
    (newId : string) (request : TenderRequest) (user : User)
  : Tx (CarrierEntity * LoadTenderEntity) :=
  let shipmentId := tr_shipmentId request in
  let carrierId := tr_carrierId request in
  shipment ← validateShipmentForTender shipmentId user;
  carrier ← validateCarrierForTender carriers carrierId user;
  existing ← query (has_offered_tender shipmentId carrierId);
  _ ← throw_if existing
        (BadRequestException "Shipment is already tendered to this carrier");
  _ ← update_shipment shipmentId (tendered_patch carrierId user);
  savedTender ← save_tender (new_tender now newId request user carrier);
  mret (carrier, savedTender).

(** [tenderLoad].  The notification sent after the commit only logs. *)
Definition tenderLoad (carriers : gmap string CarrierEntity) (now : Z)
    (newId : string) (request : TenderRequest) (user : User) (db : Store)
  : (Exception + TenderingService.TenderResponse) * Store :=
  match transaction (tenderLoad_body carriers now newId request user) db with
  | (inl e, db') => (inl e, db')
  | (inr (carrier, savedTender), db') =>
      (inr {| TenderingService.success := true;
              TenderingService.tender := savedTender;
              TenderingService.message :=
                "Load successfully tendered to " +:+ carrier_name carrier;
              TenderingService.nextActions :=
                Some [ "Carrier will receive notification";
                       "Carrier can accept, reject, or counter-offer";
                       "Offer expires at "
                       +:+ toISOString
                             (addHours now
                                (default 24 (offerExpiryHours request))) ]
           |}, db')
  end.

End TenderLoad.

End TenderCreation.

(** ** Carrier endpoints *)

Module CarriersController.

(** The envelope every endpoint answers with. *)
Record Envelope (Data : Type) := {
  success : bool;
  message : string;
  data : Data;
}.
Arguments success {Data}.
Arguments message {Data}.
Arguments data {Data}.

Record AcceptData := {
  accept_tenderId : string;
  accept_status : TenderStatus;
  accept_acceptedDate : option Z;
  accept_nextActions : option (list string);
}.

Record RejectData := {
  reject_tenderId : string;
  reject_status : TenderStatus;
  reject_rejectedDate : option Z;
  reject_responseNotes : option string;
}.

Record CancelData := {
  cancel_tenderId : string;
  cancel_status : TenderStatus;
  cancel_cancelledDate : option Z;
  cancel_cancellationReason : option string;
}.

(** [POST tenders/:id/accept]: the carrier id is the caller's company. *)
Definition acceptTender (now : Z) (tenderId : string) (user : User)
    (db : Store) : (Exception + Envelope AcceptData) * Store :=
  match TenderingService.acceptTender now tenderId (user_companyId user) user
          db with
  | (inl e, db') => (inl e, db')
  | (inr result, db') =>
      (inr {| success := TenderingService.success result;
              message := TenderingService.message result;
              data :=
                {| accept_tenderId :=
                     tender_id (TenderingService.tender result);
                   accept_status :=
                     tender_status (TenderingService.tender result);
                   accept_acceptedDate :=
                     acceptedDate (TenderingService.tender result);
                   accept_nextActions :=
                     TenderingService.nextActions result |} |}, db')
  end.

(** [POST tenders/:id/reject]. *)
Definition rejectTender (now : Z) (tenderId : string)
    (reason : option string) (user : User) (db : Store)
  : (Exception + Envelope RejectData) * Store :=
  match TenderingService.rejectTender now tenderId (user_companyId user)
          reason user db with
  | (inl e, db') => (inl e, db')
  | (inr result, db') =>
      (inr {| success := TenderingService.success result;
              message := TenderingService.message result;
              data :=
                {| reject_tenderId :=
                     tender_id (TenderingService.tender result);
                   reject_status :=
                     tender_status (TenderingService.tender result);
                   reject_rejectedDate :=
                     rejectedDate (TenderingService.tender result);
                   reject_responseNotes :=
                     responseNotes (TenderingService.tender result) |} |},
       db')
  end.

(** [POST tenders/:id/cancel]. *)
Definition cancelTender (now : Z) (tenderId reason : string) (user : User)
    (db : Store) : (Exception + Envelope CancelData) * Store :=
  match TenderingService.cancelTender now tenderId reason user db with
  | (inl e, db') => (inl e, db')
  | (inr result, db') =>
      (inr {| success := TenderingService.success result;
              message := TenderingService.message result;
              data :=
                {| cancel_tenderId :=
                     tender_id (TenderingService.tender result);
                   cancel_status :=
                     tender_status (TenderingService.tender result);
                   cancel_cancelledDate :=
                     cancelledDate (TenderingService.tender result);
                   cancel_cancellationReason :=
                     cancellationReason (TenderingService.tender result) |}
           |}, db')
  end.

End CarriersController.

(** ** Dispatch queries *)

Module DispatchQueries.

(** What [getDriverAvailability] reports, for the columns of the driver row
    that the embedding holds. *)
Record DriverAvailability := {
  da_driverId : string;
  da_driverName : string;
  da_phoneNumber : string;
  da_status : DriverStatus;
  da_isAvailable : bool;
  da_lastDispatchDate : option Z;
  da_currentAssignment : option (string * DispatchAssignmentEntity);
  da_completedLoads : Z;
}.

(** The answer of [GET assignments/:id]. *)
Record FindAssignmentAnswer := {
  fa_success : bool;
  fa_message : option string;
  fa_data : option (string * DispatchAssignmentEntity);
}.

Section Ordered.

(** [order: { createdAt: 'DESC' }]: the rows of a result, newest first.  A
    row travels with its primary key. *)
Variable newest_first :
  list (string * DispatchAssignmentEntity)
  → list (string * DispatchAssignmentEntity).

(** [getAssignmentsForShipment]. *)
Definition getAssignmentsForShipment (shipmentId : string) (db : Store)
  : list (string * DispatchAssignmentEntity) :=
  newest_first
    (List.filter
       (λ row, bool_decide (assignment_shipmentId row.2 = shipmentId))
       (map_to_list (assignments db))).

(** [getAssignmentsForDriver]. *)
Definition getAssignmentsForDriver (driverId : string) (db : Store)
  : list (string * DispatchAssignmentEntity) :=
  newest_first
    (List.filter
       (λ row, bool_decide (assignment_driverId row.2 = driverId))
       (map_to_list (assignments db))).

(** [getDriverAvailability].  The current assignment is the newest row of
    the driver whose status is one of DISPATCHED and CONFIRMED, the list of
    statuses read as in the duplicate check of [assignDriver]. *)
Definition getDriverAvailability (now : Z) (driverId : string) (db : Store)
  : Exception + DriverAvailability :=
  match drivers db !! driverId with
  | None => inl (NotFoundException "Driver not found")
  | Some driver =>
      let currentAssignment :=
        head (newest_first
                (List.filter
                   (λ row,
                      bool_decide (assignment_driverId row.2 = driverId)
                      && (bool_decide (assignment_status row.2 = DISPATCHED)
                          || bool_decide
                               (assignment_status row.2 = CONFIRMED)))
                   (map_to_list (assignments db)))) in
      inr {| da_driverId := driverId;
             da_driverName :=
               driver_firstName driver +:+ " " +:+ driver_lastName driver;
             da_phoneNumber := phoneNumber driver;
             da_status := driver_status driver;
             da_isAvailable := DispatchService.isDriverAvailable now driver;
             da_lastDispatchDate := lastDispatchDate driver;
             da_currentAssignment := currentAssignment;
             da_completedLoads := completedLoads driver |}
  end.

(** [findAssignment] of dispatch.controller.ts: the assignment id of the
    route is handed to [getAssignmentsForShipment], and the rows it returns
    are searched for that id. *)
Definition findAssignment (id : string) (db : Store) : FindAssignmentAnswer :=
  let assignments := getAssignmentsForShipment id db in
  match List.find (λ a, bool_decide (a.1 = id)) assignments with
  | None => {| fa_success := false;
               fa_message := Some "Assignment not found";
               fa_data := None |}
  | Some assignment => {| fa_success := true;
                          fa_message := None;
                          fa_data := Some assignment |}
  end.

End Ordered.

End DispatchQueries.

(** ** Provider detection *)

Module ProviderDetection.

Definition providerHeaders : list (string * string) :=
  [ ("twilio-sms-request-id", "Twilio");
    ("x-signalwire-context", "SignalWire");
    ("message Sid", "SignalWire");
    ("x-twilio-signature", "Twilio") ].

(** [headers[name]] as a condition: present and not empty. *)
Definition header_set (headers : gmap string string) (name : string) : bool :=
  match headers !! name with
  | Some value => negb (bool_decide (value = ""))
  | None => false
  end.

(** [detectProvider]. *)
Definition detectProvider (headers : gmap string string) : string :=
  match List.find
          (λ entry, header_set headers entry.1
                    || header_set headers (toLowerCase entry.1))
          providerHeaders with
  | Some entry => entry.2
  | None => "Unknown"
  end.

End ProviderDetection.

(** ** More vocabulary and sample data *)

Module ExtraVocabulary.

(** A word is solid when it is not empty and neither starts nor ends with
    white space. *)
Definition solid (k : string) : Prop :=
  trimStart k = k ∧ trimEnd k = k ∧ k ≠ "".

End ExtraVocabulary.
Export ExtraVocabulary.

Module MoreFixtures.

Import TenderCreation Fixtures.

Definition acme : CarrierEntity :=
  {| carrier_id := "c1"; carrier_name := "Acme"; scac := "ACME";
     carrier_email := "ops@acme.example";
     carrier_status := CARRIER_ACTIVE |}.

Definition carriers : gmap string CarrierEntity := {[ "c1" := acme ]}.

(** Shipment s1 is a quote; nothing has been tendered. *)
Definition quoted : Store :=
  {| tenders := ∅;
     shipments := {[ "s1" := shipment_row "s1" QUOTE None ]};
     drivers := ∅;
     assignments := ∅ |}.

Definition tender_request : TenderRequest :=
  {| tr_shipmentId := "s1"; tr_carrierId := "c1"; amount := 2500;
     offerExpiryHours := None; tenderType := None |}.

Definition show_amount (_ : Z) : string := "2500".

(** A user of the carrier c1. *)
Definition carrier_user : User :=
  {| user_id := "u2"; user_email := "ops@acme.example";
     user_firstName := "Ana"; user_lastName := "Cruz";
     user_companyId := "c1" |}.

(** An OFFERED tender whose expiry column is null. *)
Definition open_ended : Store :=
  {| tenders :=
       {[ "a" := {| tender_id := "a"; tender_shipmentId := "s1";
                    tender_carrierId := "c1"; tender_status := OFFERED;
                    offerExpiryDate := None; responseDate := None;
                    responseNotes := None; carrierResponse := None;
                    acceptedDate := None; acceptedById := None;
                    rejectedDate := None; rejectedById := None;
                    cancelledDate := None; cancelledById := None;
                    cancellationReason := None;
                    auditTrail := Some [ offered_entry ] |} ]};
     shipments := {[ "s1" := shipment_row "s1" TENDERED None ]};
     drivers := ∅;
     assignments := ∅ |}.


(** A result order that leaves the rows as they come. *)
Definition as_stored (l : list (string * DispatchAssignmentEntity))
  : list (string * DispatchAssignmentEntity) := l.

End MoreFixtures.

(** * Properties *)

Import TenderingService DispatchService WebhooksController Workflow Fixtures.

Ltac tx_unfold :=
  unfold transaction, mbind, Tx_bind, bind, mret, Tx_ret, ret, throw_if,
    throw, query, write, update_tender, update_tenders_where,
    update_shipment, update_driver, update_assignment, save_assignment in *.

(** ** What each transition operation does to the store *)

(** A transaction either raises and leaves the store as it was, or commits
    the store its body produced. *)
Lemma transaction_atomic {A} (body : Tx A) (db : Store) :
  (∃ e, transaction body db = (inl e, db))
  ∨ (∃ a db', body db = inr (a, db') ∧ transaction body db = (inr a, db')).
Proof.
  unfold transaction. destruct (body db) as [e | [a db']]; eauto.
Qed.

(** [acceptTender] either raises, or the tender was OFFERED and unexpired and
    the three writes are committed together. *)
Lemma acceptTender_inv now tenderId carrierId user db :
  (∃ e, acceptTender now tenderId carrierId user db = (inl e, db))
  ∨ (∃ t r,
       tenders db !! tenderId = Some t
       ∧ tender_carrierId t = carrierId
       ∧ tender_status t = OFFERED
       ∧ date_after now (offerExpiryDate t) = false
       ∧ acceptTender now tenderId carrierId user db =
           (inr r,
            {| tenders :=
                 cascade now (tender_shipmentId t)
                 <$> alter (accept_patch t now user) tenderId (tenders db);
               shipments :=
                 alter (booked_patch t user) (tender_shipmentId t)
                   (shipments db);
               drivers := drivers db;
               assignments := assignments db |})).
Proof.
  unfold acceptTender, acceptTender_body, findTenderForResponse,
    rejectOtherTenders.
  tx_unfold.
  destruct (tenders db !! tenderId) as [t|] eqn:Ht; [|eauto].
  case_bool_decide as Hc; [|eauto].
  case_bool_decide as Hs; simpl; [|eauto].
  destruct (date_after now (offerExpiryDate t)) eqn:Hd; simpl; [eauto|].
  right. eexists t, _. repeat split; try done.
Qed.

Lemma acceptTender_ok now tenderId carrierId user db t :
  tenders db !! tenderId = Some t →
  tender_carrierId t = carrierId →
  tender_status t = OFFERED →
  date_after now (offerExpiryDate t) = false →
  ∃ r, acceptTender now tenderId carrierId user db =
       (inr r,
        {| tenders :=
             cascade now (tender_shipmentId t)
             <$> alter (accept_patch t now user) tenderId (tenders db);
           shipments :=
             alter (booked_patch t user) (tender_shipmentId t) (shipments db);
           drivers := drivers db;
           assignments := assignments db |}).
Proof.
  intros Ht Hc Hs Hd.
  destruct (acceptTender_inv now tenderId carrierId user db)
    as [[e He] | (t' & r & Ht' & _ & _ & _ & Hr)].
  - exfalso. revert He.
    unfold acceptTender, acceptTender_body, findTenderForResponse. tx_unfold.
    rewrite Ht. rewrite (bool_decide_eq_true_2 _ Hc).
    rewrite (bool_decide_eq_true_2 _ Hs). simpl. rewrite Hd. simpl. done.
  - rewrite Ht in Ht'. injection Ht' as <-. eauto.
Qed.

Lemma rejectTender_inv now tenderId carrierId reason user db :
  (∃ e, rejectTender now tenderId carrierId reason user db = (inl e, db))
  ∨ (∃ t r,
       tenders db !! tenderId = Some t
       ∧ tender_carrierId t = carrierId
       ∧ tender_status t = OFFERED
       ∧ rejectTender now tenderId carrierId reason user db =
           (inr r,
            {| tenders :=
                 alter (reject_patch t now reason user) tenderId (tenders db);
               shipments := shipments db;
               drivers := drivers db;
               assignments := assignments db |})).
Proof.
  unfold rejectTender, rejectTender_body, findTenderForResponse.
  tx_unfold.
  destruct (tenders db !! tenderId) as [t|] eqn:Ht; [|eauto].
  case_bool_decide as Hc; [|eauto].
  case_bool_decide as Hs; simpl; [|eauto].
  right. eexists t, _. repeat split; try done.
Qed.

Lemma cancelTender_inv now tenderId reason user db :
  (∃ e, cancelTender now tenderId reason user db = (inl e, db))
  ∨ (∃ t r,
       tenders db !! tenderId = Some t
       ∧ tender_status t ≠ CANCELLED
       ∧ tender_status t ≠ EXPIRED
       ∧ cancelTender now tenderId reason user db =
           (inr r,
            {| tenders :=
                 alter (cancel_patch t now reason user) tenderId (tenders db);
               shipments :=
                 if bool_decide (tender_status t = ACCEPTED)
                 then alter (quote_patch user) (tender_shipmentId t)
                        (shipments db)
                 else shipments db;
               drivers := drivers db;
               assignments := assignments db |})).
Proof.
  unfold cancelTender, cancelTender_body.
  tx_unfold.
  destruct (tenders db !! tenderId) as [t|] eqn:Ht; [|eauto].
  case_bool_decide as Hc; simpl; [eauto|].
  case_bool_decide as He; simpl; [eauto|].
  right. eexists t, _. repeat split; try done.
  case_bool_decide; done.
Qed.

Lemma processDriverResponse_inv now driverId response assignmentId user db :
  (∃ e, processDriverResponse now driverId response assignmentId user db
        = (inl e, db))
  ∨ (∃ a d r,
       assignments db !! assignmentId = Some a
       ∧ assignment_driverId a = driverId
       ∧ assignment_status a = DISPATCHED
       ∧ drivers db !! driverId = Some d
       ∧ ((response = "1"
           ∧ processDriverResponse now driverId response assignmentId user db
             = (inr r,
                {| tenders := tenders db;
                   shipments :=
                     alter (confirmed_shipment_patch user)
                       (assignment_shipmentId a) (shipments db);
                   drivers :=
                     alter (confirm_driver_patch d) driverId (drivers db);
                   assignments :=
                     alter (response_patch a now CONFIRMED response user)
                       assignmentId (assignments db) |}))
          ∨ (response = "2"
             ∧ processDriverResponse now driverId response assignmentId user
                 db
               = (inr r,
                  {| tenders := tenders db;
                     shipments :=
                       alter (rejected_shipment_patch user)
                         (assignment_shipmentId a) (shipments db);
                     drivers :=
                       alter (set_driver_status ACTIVE) driverId (drivers db);
                     assignments :=
                       alter
                         (response_patch a now DISPATCH_REJECTED response
                            user)
                         assignmentId (assignments db) |})))).
Proof.
  unfold processDriverResponse, processDriverResponse_body, joined_driver.
  tx_unfold.
  destruct (assignments db !! assignmentId) as [a|] eqn:Ha; [|eauto].
  case_bool_decide as Hd; simpl; [|eauto].
  case_bool_decide as Hs; simpl; [|eauto].
  rewrite Hd.
  destruct (bool_decide (response = "1")) eqn:H1.
  - apply bool_decide_eq_true in H1.
    destruct (drivers db !! driverId) as [d|] eqn:Hdr; simpl; [|eauto].
    right. eexists a, d, _. repeat split; try done. left. split; [done|].
    reflexivity.
  - destruct (bool_decide (response = "2")) eqn:H2; [|eauto].
    apply bool_decide_eq_true in H2.
    destruct (drivers db !! driverId) as [d|] eqn:Hdr; simpl; [|eauto].
    right. eexists a, d, _. repeat split; try done. right. split; [done|].
    reflexivity.
Qed.

Lemma processDriverResponse_confirm now driverId assignmentId user db a d :
  assignments db !! assignmentId = Some a →
  assignment_driverId a = driverId →
  assignment_status a = DISPATCHED →
  drivers db !! driverId = Some d →
  ∃ r, processDriverResponse now driverId "1" assignmentId user db
       = (inr r,
          {| tenders := tenders db;
             shipments :=
               alter (confirmed_shipment_patch user) (assignment_shipmentId a)
                 (shipments db);
             drivers := alter (confirm_driver_patch d) driverId (drivers db);
             assignments :=
               alter (response_patch a now CONFIRMED "1" user) assignmentId
                 (assignments db) |}).
Proof.
  intros Ha Hd Hs Hdr.
  unfold processDriverResponse, processDriverResponse_body, joined_driver.
  tx_unfold.
  rewrite Ha, (bool_decide_eq_true_2 _ Hd), (bool_decide_eq_true_2 _ Hs).
  simpl. rewrite Hd, Hdr. simpl. eauto.
Qed.

Lemma processDriverResponse_reject now driverId assignmentId user db a d :
  assignments db !! assignmentId = Some a →
  assignment_driverId a = driverId →
  assignment_status a = DISPATCHED →
  drivers db !! driverId = Some d →
  ∃ r, processDriverResponse now driverId "2" assignmentId user db
       = (inr r,
          {| tenders := tenders db;
             shipments :=
               alter (rejected_shipment_patch user) (assignment_shipmentId a)
                 (shipments db);
             drivers := alter (set_driver_status ACTIVE) driverId (drivers db);
             assignments :=
               alter (response_patch a now DISPATCH_REJECTED "2" user)
                 assignmentId (assignments db) |}).
Proof.
  intros Ha Hd Hs Hdr.
  unfold processDriverResponse, processDriverResponse_body, joined_driver.
  tx_unfold.
  rewrite Ha, (bool_decide_eq_true_2 _ Hd), (bool_decide_eq_true_2 _ Hs).
  simpl. rewrite Hd, Hdr. simpl. eauto.
Qed.

(** The guard of [processDriverResponse] on an assignment that is no longer
    DISPATCHED. *)
Lemma processDriverResponse_not_dispatched now driverId response assignmentId
    user db a :
  assignments db !! assignmentId = Some a →
  assignment_driverId a = driverId →
  assignment_status a ≠ DISPATCHED →
  processDriverResponse now driverId response assignmentId user db
  = (inl (BadRequestException
            ("Assignment is not in DISPATCHED status. Current status: "
             +:+ DispatchStatus_value (assignment_status a))), db).
Proof.
  intros Ha Hd Hs.
  unfold processDriverResponse, processDriverResponse_body. tx_unfold.
  rewrite Ha, (bool_decide_eq_true_2 _ Hd), (bool_decide_eq_false_2 _ Hs).
  reflexivity.
Qed.

Lemma cascade_terminal now sid row :
  tender_status row ≠ OFFERED → cascade now sid row = row.
Proof.
  intros H. unfold cascade. rewrite (bool_decide_eq_false_2 _ H).
  by rewrite andb_false_r.
Qed.

(** ** C1: terminal states *)

(** C1, as amended.  An offer in a terminal state (ACCEPTED, REJECTED,
    EXPIRED or CANCELLED) keeps that state through every call of
    acceptTender, rejectTender, cancelTender and processDriverResponse,
    whatever offer the call is addressed to, and a call addressed to it
    raises and leaves the whole store unchanged -- except a cancelTender
    addressed to a tender that is neither CANCELLED nor EXPIRED, which the
    guard of cancelTender lets through. *)
Theorem terminal_offer_keeps_state now user op db o s :
  offer_status db o = Some s →
  is_terminal s = true →
  cancel_applies op o s = false →
  offer_status (run now user op db).2 o = Some s
  ∧ (target op = o → ∃ e, run now user op db = (Some e, db)).
Proof.
  intros Hs Hterm Hcancel. unfold cancel_applies in Hcancel.
  destruct op as [tid cid | tid cid reason | tid reason | did resp aid];
    simpl in *.
  - (* acceptTender *)
    destruct (acceptTender_inv now tid cid user db)
      as [[e ->] | (t & r & Ht & _ & Hoff & _ & ->)]; simpl; [by eauto|].
    destruct o as [id | id]; simpl in *; [|by split].
    destruct (decide (tid = id)) as [-> | Hne].
    + rewrite Ht in Hs. simpl in Hs. injection Hs as <-.
      rewrite Hoff in Hterm. done.
    + split; [|congruence].
      rewrite lookup_fmap, lookup_alter_ne by done.
      destruct (tenders db !! id) as [t'|] eqn:Ht'; simpl in *; [|done].
      injection Hs as <-. rewrite cascade_terminal; [done|].
      intros Heq. rewrite Heq in Hterm. done.
  - (* rejectTender *)
    destruct (rejectTender_inv now tid cid reason user db)
      as [[e ->] | (t & r & Ht & _ & Hoff & ->)]; simpl; [by eauto|].
    destruct o as [id | id]; simpl in *; [|by split].
    destruct (decide (tid = id)) as [-> | Hne].
    + rewrite Ht in Hs. simpl in Hs. injection Hs as <-.
      rewrite Hoff in Hterm. done.
    + split; [|congruence]. by rewrite lookup_alter_ne.
  - (* cancelTender *)
    destruct (cancelTender_inv now tid reason user db)
      as [[e ->] | (t & r & Ht & Hnc & Hne & ->)]; simpl; [by eauto|].
    destruct o as [id | id]; simpl in *; [|by split].
    destruct (decide (tid = id)) as [-> | Hne'].
    + rewrite Ht in Hs. simpl in Hs. injection Hs as <-.
      rewrite bool_decide_eq_true_2 in Hcancel by done. simpl in *.
      destruct (tender_status t); done.
    + split; [|congruence]. by rewrite lookup_alter_ne.
  - (* processDriverResponse *)
    destruct (processDriverResponse_inv now did resp aid user db)
      as [[e ->] | (a & d & r & Ha & _ & Hdis & _ & [[_ ->] | [_ ->]])];
      simpl; [by eauto| |].
    all: destruct o as [id | id]; simpl in *; [by split|].
    all: destruct (decide (aid = id)) as [-> | Hne];
      [ rewrite Ha in Hs; simpl in Hs; injection Hs as <-;
        rewrite Hdis in Hterm; done
      | split; [|congruence]; by rewrite lookup_alter_ne ].
Qed.

(** A second acceptTender on the ACCEPTED tender a raises and changes
    nothing. *)
Lemma terminal_offer_keeps_state_witness :
  offer_status
    (run 500 dispatcher (AcceptTender "a" "c1") accepted_and_offered).2
    (Tender "a") = Some (TenderState ACCEPTED)
  ∧ (target (AcceptTender "a" "c1") = Tender "a" →
     ∃ e, run 500 dispatcher (AcceptTender "a" "c1") accepted_and_offered
          = (Some e, accepted_and_offered)).
Proof.
  apply (terminal_offer_keeps_state 500 dispatcher (AcceptTender "a" "c1")
           accepted_and_offered (Tender "a") (TenderState ACCEPTED));
    reflexivity.
Defined.

(** C1 fails as stated: cancelTender on the ACCEPTED tender a succeeds and
    moves it to CANCELLED (and puts the shipment back to QUOTE). *)
Lemma cancelTender_moves_accepted_tender :
  offer_status accepted_and_offered (Tender "a") = Some (TenderState ACCEPTED)
  ∧ (run 500 dispatcher (CancelTender "a" "changed plans")
       accepted_and_offered).1 = None
  ∧ offer_status
      (run 500 dispatcher (CancelTender "a" "changed plans")
         accepted_and_offered).2 (Tender "a")
    = Some (TenderState CANCELLED)
  ∧ shipment_status
    <$> shipments
          (run 500 dispatcher (CancelTender "a" "changed plans")
             accepted_and_offered).2 !! "s1"
    = Some QUOTE.
Proof. repeat split; vm_compute; reflexivity. Qed.

(** ** C2: single winner *)

(** C2, as amended.  Accepting an OFFERED, unexpired tender succeeds and, in
    the one committed transaction, leaves that tender ACCEPTED, every other
    OFFERED tender of the shipment CANCELLED and the shipment BOOKED; no
    tender of the shipment remains OFFERED.  The accepted tender is the only
    ACCEPTED one provided no tender of the shipment was ACCEPTED before the
    call. *)
Theorem acceptTender_single_winner now tenderId carrierId user db t expiry :
  tenders db !! tenderId = Some t →
  tender_carrierId t = carrierId →
  tender_status t = OFFERED →
  offerExpiryDate t = Some expiry →
  now ≤ expiry →
  ∃ r db',
    acceptTender now tenderId carrierId user db = (inr r, db')
    ∧ tender_status <$> tenders db' !! tenderId = Some ACCEPTED
    ∧ (∀ id t', id ≠ tenderId →
         tenders db !! id = Some t' →
         tender_shipmentId t' = tender_shipmentId t →
         tender_status t' = OFFERED →
         tender_status <$> tenders db' !! id = Some CANCELLED)
    ∧ (∀ s, shipments db !! tender_shipmentId t = Some s →
         shipment_status <$> shipments db' !! tender_shipmentId t
         = Some BOOKED)
    ∧ (∀ id t', tenders db' !! id = Some t' →
         tender_shipmentId t' = tender_shipmentId t →
         tender_status t' ≠ OFFERED)
    ∧ ((∀ id t', tenders db !! id = Some t' →
          tender_shipmentId t' = tender_shipmentId t →
          tender_status t' ≠ ACCEPTED) →
       ∀ id t', tenders db' !! id = Some t' →
         tender_shipmentId t' = tender_shipmentId t →
         tender_status t' = ACCEPTED → id = tenderId).
Proof.
  intros Ht Hc Hs He Hle.
  assert (Hd : date_after now (offerExpiryDate t) = false).
  { rewrite He. simpl. apply Z.ltb_ge. done. }
  destruct (acceptTender_ok now tenderId carrierId user db t Ht Hc Hs Hd)
    as [r Hr].
  eexists r, _. split; [exact Hr|]. simpl.
  assert (Hlook : ∀ id,
    (cascade now (tender_shipmentId t)
     <$> alter (accept_patch t now user) tenderId (tenders db)) !! id
    = if decide (tenderId = id) then Some (accept_patch t now user t)
      else cascade now (tender_shipmentId t) <$> tenders db !! id).
  { intros id. rewrite lookup_fmap. destruct (decide (tenderId = id)) as [<-|].
    - rewrite lookup_alter_eq, Ht. simpl. by rewrite cascade_terminal.
    - by rewrite lookup_alter_ne. }
  repeat split.
  - rewrite Hlook. by rewrite decide_True.
  - intros id t' Hne Ht' Hsid Hoff. rewrite Hlook, decide_False by done.
    rewrite Ht'. simpl. unfold cascade.
    by rewrite !bool_decide_eq_true_2.
  - intros s Hsh. rewrite lookup_alter_eq, Hsh. done.
  - intros id t'. rewrite Hlook. destruct (decide (tenderId = id)) as [<-|].
    + intros [= <-]. done.
    + destruct (tenders db !! id) as [t0|]; simpl; [|done].
      intros [= <-]. unfold cascade.
      case_bool_decide as H1; case_bool_decide as H2; simpl; try done.
  - intros Hnone id t'. rewrite Hlook.
    destruct (decide (tenderId = id)) as [<-|]; [done|].
    destruct (tenders db !! id) as [t0|] eqn:Ht0; simpl; [|done].
    intros [= <-]. unfold cascade.
    case_bool_decide as H1; case_bool_decide as H2; simpl; try done.
    all: intros Hsid Hacc; exfalso; by eapply Hnone.
Qed.

(** With carriers c1 and c2 both holding an offer for s1, accepting the
    tender of c2 cancels the tender of c1. *)
Lemma acceptTender_single_winner_witness :
  ∃ r db',
    acceptTender 500 "b" "c2" dispatcher two_offers = (inr r, db')
    ∧ tender_status <$> tenders db' !! "b" = Some ACCEPTED
    ∧ tender_status <$> tenders db' !! "a" = Some CANCELLED
    ∧ shipment_status <$> shipments db' !! "s1" = Some BOOKED.
Proof.
  destruct (acceptTender_single_winner 500 "b" "c2" dispatcher two_offers
              (tender_row "b" "s1" "c2" OFFERED 1000) 1000)
    as (r & db' & Hr & Hacc & Hcascade & Hbooked & _);
    [reflexivity | reflexivity | reflexivity | reflexivity | lia |].
  exists r, db'. split; [exact Hr|]. split; [exact Hacc|]. split.
  - apply (Hcascade "a" (tender_row "a" "s1" "c1" OFFERED 1000));
      [discriminate | reflexivity | reflexivity | reflexivity].
  - apply (Hbooked (shipment_row "s1" TENDERED None)). reflexivity.
Defined.

(** C2 fails as stated: when tender a of the shipment is already ACCEPTED,
    accepting tender b succeeds and leaves two ACCEPTED tenders for s1. *)
Lemma second_accept_leaves_two_accepted :
  ∃ r db',
    acceptTender 500 "b" "c2" dispatcher accepted_and_offered = (inr r, db')
    ∧ tender_shipmentId <$> tenders db' !! "a" = Some "s1"
    ∧ tender_shipmentId <$> tenders db' !! "b" = Some "s1"
    ∧ tender_status <$> tenders db' !! "a" = Some ACCEPTED
    ∧ tender_status <$> tenders db' !! "b" = Some ACCEPTED.
Proof. eexists _, _. repeat split; vm_compute; reflexivity. Qed.

(** ** C3: expiry *)

(** C3, as amended.  Accepting an OFFERED tender whose offerExpiryDate lies
    in the past raises "Tender has expired"; the transaction is rolled back,
    so the store is unchanged and the tender is still OFFERED. *)
Theorem acceptTender_expired now tenderId carrierId user db t expiry :
  tenders db !! tenderId = Some t →
  tender_carrierId t = carrierId →
  tender_status t = OFFERED →
  offerExpiryDate t = Some expiry →
  expiry < now →
  acceptTender now tenderId carrierId user db
  = (inl (BadRequestException "Tender has expired"), db)
  ∧ tender_status
    <$> tenders (acceptTender now tenderId carrierId user db).2 !! tenderId
    = Some OFFERED.
Proof.
  intros Ht Hc Hs He Hlt.
  assert (Hr : acceptTender now tenderId carrierId user db
               = (inl (BadRequestException "Tender has expired"), db)).
  { unfold acceptTender, acceptTender_body, findTenderForResponse. tx_unfold.
    rewrite Ht, (bool_decide_eq_true_2 _ Hc), (bool_decide_eq_true_2 _ Hs).
    simpl. rewrite He. simpl. apply Z.ltb_lt in Hlt. by rewrite Hlt. }
  split; [done|]. rewrite Hr. simpl. by rewrite Ht, <- Hs.
Qed.

Lemma acceptTender_expired_witness :
  acceptTender 2000 "a" "c1" dispatcher two_offers
  = (inl (BadRequestException "Tender has expired"), two_offers)
  ∧ tender_status
    <$> tenders (acceptTender 2000 "a" "c1" dispatcher two_offers).2 !! "a"
    = Some OFFERED.
Proof.
  apply (acceptTender_expired 2000 "a" "c1" dispatcher two_offers
           (tender_row "a" "s1" "c1" OFFERED 1000) 1000);
    [reflexivity | reflexivity | reflexivity | reflexivity | lia].
Defined.

(** C3 fails as stated: after the refused attempt the tender is not
    EXPIRED. *)
Lemma expired_tender_is_not_marked :
  (acceptTender 2000 "a" "c1" dispatcher two_offers).1
  = inl (BadRequestException "Tender has expired")
  ∧ tender_status
    <$> tenders (acceptTender 2000 "a" "c1" dispatcher two_offers).2 !! "a"
    ≠ Some EXPIRED.
Proof. split; vm_compute; [reflexivity | discriminate]. Qed.

(** ** C4: shipment status after a driver response *)

(** C4, as amended.  For a DISPATCHED assignment, the response "1" sets the
    shipment's status to BOOKED (ShipmentStatus has no confirmed member) and
    keeps the assigned driver; the response "2" sets it to TENDERED and
    clears the assigned driver. *)
Theorem driver_response_shipment_status now driverId assignmentId user db a d
    s :
  assignments db !! assignmentId = Some a →
  assignment_driverId a = driverId →
  assignment_status a = DISPATCHED →
  drivers db !! driverId = Some d →
  shipments db !! assignment_shipmentId a = Some s →
  (∃ r db' s',
     processDriverResponse now driverId "1" assignmentId user db = (inr r, db')
     ∧ shipments db' !! assignment_shipmentId a = Some s'
     ∧ shipment_status s' = BOOKED
     ∧ assignedDriverId s' = assignedDriverId s)
  ∧ (∃ r db' s',
       processDriverResponse now driverId "2" assignmentId user db
       = (inr r, db')
       ∧ shipments db' !! assignment_shipmentId a = Some s'
       ∧ shipment_status s' = TENDERED
       ∧ assignedDriverId s' = None).
Proof.
  intros Ha Hd Hs Hdr Hsh. split.
  - destruct (processDriverResponse_confirm now driverId assignmentId user db
                a d Ha Hd Hs Hdr) as [r Hr].
    eexists r, _, _. split; [exact Hr|]. simpl.
    rewrite lookup_alter_eq, Hsh. simpl. done.
  - destruct (processDriverResponse_reject now driverId assignmentId user db
                a d Ha Hd Hs Hdr) as [r Hr].
    eexists r, _, _. split; [exact Hr|]. simpl.
    rewrite lookup_alter_eq, Hsh. simpl. done.
Qed.

Lemma driver_response_shipment_status_witness :
  (∃ r db' s',
     processDriverResponse 500 "d1" "1" "x1" dispatcher dispatched
     = (inr r, db')
     ∧ shipments db' !! "s1" = Some s'
     ∧ shipment_status s' = BOOKED
     ∧ assignedDriverId s' = Some "d1")
  ∧ (∃ r db' s',
       processDriverResponse 500 "d1" "2" "x1" dispatcher dispatched
       = (inr r, db')
       ∧ shipments db' !! "s1" = Some s'
       ∧ shipment_status s' = TENDERED
       ∧ assignedDriverId s' = None).
Proof.
  apply (driver_response_shipment_status 500 "d1" "x1" dispatcher dispatched
           (assignment_row "x1" "s1" "d1" DISPATCHED)
           (driver_row "d1" ON_LOAD (Some 9000) 8)
           (shipment_row "s1" BOOKED (Some "d1")));
    reflexivity.
Defined.

(** C4 fails as stated: after the response "1" the shipment's status is
    BOOKED, not confirmed. *)
Lemma confirmation_leaves_shipment_booked :
  (processDriverResponse 500 "d1" "1" "x1" dispatcher dispatched).1
  = inr {| dr_success := true;
           dr_message := "Driver Sam Lee confirmed dispatch";
           dr_nextActions :=
             Some [ "Generate BOL and pickup documents";
                    "Update shipment status to IN_TRANSIT when picked up";
                    "Monitor driver location for real-time tracking" ] |}
  ∧ ShipmentStatus_value
    <$> (shipment_status
         <$> shipments
               (processDriverResponse 500 "d1" "1" "x1" dispatcher
                  dispatched).2 !! "s1")
    = Some "BOOKED"
  ∧ toLowerCase "BOOKED" ≠ "confirmed".
Proof.
  split; [|split]; vm_compute; [reflexivity | reflexivity | discriminate].
Qed.

(** ** C5: audit trail *)

(** The three direct transitions append exactly one entry to the audit
    trail of the tender they are addressed to. *)
Lemma direct_transition_appends_one_entry now user t row reason text :
  (∃ e, auditTrail (accept_patch t now user row)
        = Some (or_empty (auditTrail t) ++ [e])%list)
  ∧ (∃ e, auditTrail (reject_patch t now reason user row)
          = Some (or_empty (auditTrail t) ++ [e])%list)
  ∧ (∃ e, auditTrail (cancel_patch t now text user row)
          = Some (or_empty (auditTrail t) ++ [e])%list).
Proof. repeat split; eexists; reflexivity. Qed.

(** C5 at the failing input.  Carriers c1 and c2 hold an OFFERED tender for
    s1, each with the OFFERED entry in its audit trail.  Accepting the
    tender of c1 cascades to the tender of c2, whose audit trail afterwards
    holds the AUTO_CANCELLED entry alone: the OFFERED entry is gone, so the
    new trail is not the old one with an entry appended. *)
Theorem cascade_overwrites_audit_trail :
  auditTrail <$> tenders two_offers !! "b" = Some (Some [ offered_entry ])
  ∧ auditTrail
    <$> tenders (acceptTender 500 "a" "c1" dispatcher two_offers).2 !! "b"
    = Some (Some [ {| action := "AUTO_CANCELLED"; timestamp := 500;
                      userId := None;
                      notes :=
                        Some "Cancelled due to another tender being accepted"
                   |} ])
  ∧ ¬ ∃ e,
        auditTrail
        <$> tenders (acceptTender 500 "a" "c1" dispatcher two_offers).2 !! "b"
        = Some (Some ([ offered_entry ] ++ [ e ])%list).
Proof.
  split; [reflexivity|]. split; [vm_compute; reflexivity|].
  intros [e He]. vm_compute in He. discriminate He.
Qed.

(** ** Strings *)

Lemma toLowerCase_char_idemp c :
  toLowerCase_char (toLowerCase_char c) = toLowerCase_char c.
Proof. destruct c as [[] [] [] [] [] [] [] []]; reflexivity. Qed.

Lemma toLowerCase_idemp s : toLowerCase (toLowerCase s) = toLowerCase s.
Proof.
  induction s as [|c s IH]; [done|].
  simpl. by rewrite toLowerCase_char_idemp, IH.
Qed.

Lemma string_app_assoc (a b c : string) : (a +:+ b) +:+ c = a +:+ (b +:+ c).
Proof.
  induction a as [|x a IH]; [done|].
  change (String x ((a +:+ b) +:+ c) = String x (a +:+ b +:+ c)).
  by rewrite IH.
Qed.

Lemma string_app_nonempty a b : b ≠ "" → a +:+ b ≠ "".
Proof. intros Hb. destruct a, b; cbv; congruence. Qed.

(** [s.startsWith(k)] holds exactly when [s] is [k] followed by something. *)
Lemma startsWith_app s k : startsWith s k = true ↔ ∃ post, s = k +:+ post.
Proof.
  revert s. induction k as [|c k IH]; intros s; simpl.
  - split; [|done]. intros _. exists s. reflexivity.
  - destruct s as [|d s].
    + split; [done|]. intros [post H]. discriminate H.
    + rewrite andb_true_iff, bool_decide_eq_true, IH. split.
      * intros [-> [post ->]]. exists post. reflexivity.
      * intros [post H]. injection H as -> ->. eauto.
Qed.

(** [s.includes(k)] holds exactly when [k] occurs somewhere in [s]. *)
Lemma includes_app s k :
  includes s k = true ↔ ∃ pre post, s = pre +:+ k +:+ post.
Proof.
  induction s as [|d s IH]; simpl.
  - rewrite orb_false_r, startsWith_app. split.
    + intros [post H]. exists "", post. exact H.
    + intros (pre & post & H). destruct pre; [exists post; exact H|].
      discriminate H.
  - rewrite orb_true_iff, startsWith_app, IH. split.
    + intros [[post H] | (pre & post & ->)].
      * exists "", post. exact H.
      * exists (String d pre), post. reflexivity.
    + intros (pre & post & H). destruct pre as [|c pre].
      * left. exists post. exact H.
      * right. injection H as -> ->. exists pre, post. reflexivity.
Qed.

Lemma includes_trans s mid k :
  includes mid k = true → includes s mid = true → includes s k = true.
Proof.
  rewrite !includes_app. intros (p1 & q1 & ->) (p2 & q2 & ->).
  exists (p2 +:+ p1), (q1 +:+ q2). by rewrite !string_app_assoc.
Qed.

Lemma cannot_includes_no s :
  includes s "cannot" = true → includes s "no" = true.
Proof. apply includes_trans. reflexivity. Qed.

(** ** The inbound webhook *)

(** The webhook's two stages of matching amount to the ordered rules of
    [classify]: the patterns /^1$/, /^2$/, /confirm/ and /reject/ of the
    second stage were decided by the first, and /cannot/ is covered by
    /no/. *)
Lemma parseSmsResponse_classify payload :
  intent_of (parseSmsResponse payload) = classify (Body payload).
Proof.
  unfold parseSmsResponse, classify.
  set (body := toLowerCase (trim (Body payload))).
  assert (Hlow : toLowerCase body = body) by apply toLowerCase_idemp.
  unfold confirmPatterns, rejectPatterns, accept_keywords, reject_keywords.
  cbn [existsb test]. rewrite !Hlow.
  pose proof (cannot_includes_no body) as Hcannot.
  destruct (bool_decide (body = "1")); [reflexivity|].
  destruct (includes body "confirm"); [reflexivity|].
  destruct (bool_decide (body = "2")); [reflexivity|].
  destruct (includes body "reject"); [reflexivity|].
  cbn [orb].
  destruct (includes body "accept"); [reflexivity|].
  destruct (includes body "yes"); [reflexivity|].
  destruct (includes body "ok"); [reflexivity|].
  destruct (includes body "got it"); [reflexivity|].
  destruct (includes body "on my way"); [reflexivity|].
  cbn [orb].
  destruct (includes body "decline"); [reflexivity|].
  destruct (includes body "no"); [reflexivity|].
  destruct (includes body "can't"); [reflexivity|].
  destruct (includes body "cannot"); [by specialize (Hcannot eq_refl)|].
  cbn [orb].
  destruct (includes body "not available");
    [by destruct (includes body "busy")|].
  destruct (includes body "busy"); reflexivity.
Qed.

Lemma parseSmsResponse_cases payload :
  parseSmsResponse payload = only_response "1"
  ∨ parseSmsResponse payload = only_response "2"
  ∨ parseSmsResponse payload
    = {| parsed_response := None; parsed_driverId := None;
         parsed_assignmentId := None |}.
Proof.
  unfold parseSmsResponse.
  repeat match goal with |- context [if ?b then _ else _] => destruct b end;
    auto.
Qed.

(** No inbound message gets past the two early returns of the handler. *)
Lemma receiveSmsWebhook_result now payload db :
  receiveSmsWebhook now payload db
  = (failure now
       (match classify (Body payload) with
        | UNRECOGNIZED => "Unrecognized SMS response"
        | _ => "Could not process SMS response - missing IDs"
        end), db).
Proof.
  rewrite <- parseSmsResponse_classify. unfold receiveSmsWebhook.
  destruct (parseSmsResponse_cases payload) as [-> | [-> | ->]]; reflexivity.
Qed.

(** ** C6: redelivery *)

(** C6.  The assignment x1 of driver d1 is already CONFIRMED when the
    driver's "1" is delivered once more.  The message is parsed as the
    response "1" with neither a driver id nor an assignment id, so the
    handler stops at its missing-ids return: it answers success = false
    with "Could not process SMS response - missing IDs", not a success, and
    leaves the store as it was.  Called with the ids of the driver and of
    the assignment, processDriverResponse refuses the response as well. *)
Theorem redelivered_webhook_reports_failure :
  assignment_status <$> assignments confirmed !! "x1" = Some CONFIRMED
  ∧ parseSmsResponse (sms "+15550100" "1") = only_response "1"
  ∧ receiveSmsWebhook 500 (sms "+15550100" "1") confirmed
    = (failure 500 "Could not process SMS response - missing IDs", confirmed)
  ∧ WebhooksController.success
      (receiveSmsWebhook 500 (sms "+15550100" "1") confirmed).1 = false
  ∧ processDriverResponse 500 "d1" "1" "x1" getMockUserForWebhook confirmed
    = (inl (BadRequestException
              "Assignment is not in DISPATCHED status. Current status: CONFIRMED"),
       confirmed).
Proof.
  split; [reflexivity|]. split; [vm_compute; reflexivity|].
  split; [vm_compute; reflexivity|]. split; [vm_compute; reflexivity|].
  apply (processDriverResponse_not_dispatched 500 "d1" "1" "x1"
           getMockUserForWebhook confirmed
           (assignment_row "x1" "s1" "d1" CONFIRMED));
    [reflexivity | reflexivity | discriminate].
Qed.

(** ** C7: correlation *)

(** C7.  Driver d1, whose phone number is the sender's, holds the only
    DISPATCHED assignment of the store; the inbound "Accept" is recognised
    as an acceptance, yet the handler answers "Could not process SMS
    response - missing IDs" and the assignment stays DISPATCHED: the message
    is correlated with no assignment, and no Ambiguous outcome is
    reported. *)
Theorem sole_offer_is_not_resolved :
  phoneNumber <$> drivers dispatched !! "d1" = Some "+15550100"
  ∧ assignments dispatched
    = {[ "x1" := assignment_row "x1" "s1" "d1" DISPATCHED ]}
  ∧ intent_of (parseSmsResponse (sms "+15550100" "Accept")) = ACCEPT
  ∧ receiveSmsWebhook 500 (sms "+15550100" "Accept") dispatched
    = (failure 500 "Could not process SMS response - missing IDs", dispatched)
  ∧ assignment_status
    <$> assignments
          (receiveSmsWebhook 500 (sms "+15550100" "Accept") dispatched).2
        !! "x1"
    = Some DISPATCHED.
Proof.
  split; [reflexivity|]. split; [reflexivity|].
  repeat split; vm_compute; reflexivity.
Qed.

(** ** C8: classification *)

(** C8, as amended.  On the trimmed, lower-cased body the webhook decides
    in this order: the body "1" or the word confirm gives ACCEPT; else the
    body "2" or the word reject gives REJECT; else one of accept, yes, ok,
    got it, on my way gives ACCEPT; else one of decline, no, can't, busy,
    not available gives REJECT; else the message is UNRECOGNIZED.  The body
    "maybe" is UNRECOGNIZED, and an UNRECOGNIZED message changes no
    state. *)
Theorem parseSmsResponse_classification now payload db :
  intent_of (parseSmsResponse payload) = classify (Body payload)
  ∧ classify "maybe" = UNRECOGNIZED
  ∧ (classify (Body payload) = UNRECOGNIZED →
     receiveSmsWebhook now payload db
     = (failure now "Unrecognized SMS response", db)).
Proof.
  split; [apply parseSmsResponse_classify|]. split; [reflexivity|].
  intros Hc. by rewrite receiveSmsWebhook_result, Hc.
Qed.

Lemma parseSmsResponse_classification_witness :
  classify "maybe" = UNRECOGNIZED
  ∧ receiveSmsWebhook 500 (sms "+15550100" "maybe") dispatched
    = (failure 500 "Unrecognized SMS response", dispatched).
Proof.
  destruct (parseSmsResponse_classification 500 (sms "+15550100" "maybe")
              dispatched) as (_ & Hmaybe & Hstate).
  split; [exact Hmaybe|]. apply Hstate. reflexivity.
Defined.

(** C8 fails as stated: "ok, I reject" matches the accept family, which the
    stated order tries first, yet the webhook answers REJECT. *)
Lemma reject_word_precedes_accept_family :
  existsb (includes (toLowerCase (trim "ok, I reject")))
    ("confirm" :: accept_keywords) = true
  ∧ spec_classify "ok, I reject" = ACCEPT
  ∧ intent_of (parseSmsResponse (sms "+15550100" "ok, I reject")) = REJECT.
Proof. repeat split; vm_compute; reflexivity. Qed.

(** ** The eligibility gate *)

Lemma isDriverAvailable_false now driver :
  isDriverAvailable now driver = false
  ↔ (driver_status driver ≠ ACTIVE ∧ driver_status driver ≠ OFF_DUTY)
    ∨ (∃ d, licenseExpirationDate driver = Some d ∧ d < now)
    ∨ (∃ mc d, medicalCertificate driver = Some mc
               ∧ expirationDate mc = Some d ∧ d < now).
Proof.
  unfold isDriverAvailable.
  destruct (licenseExpirationDate driver) as [l|];
    destruct (medicalCertificate driver) as [[[m|]]|];
    destruct (driver_status driver); simpl;
    try destruct (Z.ltb_spec l now); try destruct (Z.ltb_spec m now);
    simpl; split; intros Hx; try done;
    try (right; left; by eauto); try (right; right; by eauto);
    try (left; done);
    destruct Hx as [[? ?] | [(? & ? & ?) | (? & ? & ? & ? & ?)]];
    simplify_eq; simpl in *; simplify_eq; lia.
Qed.

(** The three ways in which [validateShipmentForDispatch] ends: none of
    them returns the shipment. *)
Lemma validateShipmentForDispatch_cases shipmentId user db :
  ((∀ s, shipments db !! shipmentId = Some s →
         shipment_tenantId s ≠ user_companyId user)
   ∧ validateShipmentForDispatch shipmentId user db
     = inl (NotFoundException "Shipment not found"))
  ∨ (∃ s, shipments db !! shipmentId = Some s
          ∧ shipment_tenantId s = user_companyId user
          ∧ shipment_status s ≠ BOOKED
          ∧ shipment_status s ≠ TENDERED
          ∧ validateShipmentForDispatch shipmentId user db
            = inl (BadRequestException
                     ("Shipment must be BOOKED or TENDERED to dispatch. Current status: "
                      +:+ ShipmentStatus_value (shipment_status s))))
  ∨ (∃ s, shipments db !! shipmentId = Some s
          ∧ shipment_tenantId s = user_companyId user
          ∧ (shipment_status s = BOOKED ∨ shipment_status s = TENDERED)
          ∧ validateShipmentForDispatch shipmentId user db
            = inl (BadRequestException
                     "No accepted tender found for this shipment")).
Proof.
  unfold validateShipmentForDispatch. tx_unfold.
  destruct (shipments db !! shipmentId) as [s|] eqn:Hs; [|left; by split].
  case_bool_decide as Ht; simpl.
  - destruct (decide (shipment_status s = BOOKED)) as [Hb | Hb].
    { right; right. exists s. rewrite (bool_decide_eq_true_2 _ Hb). simpl.
      unfold acceptedTender. simpl. eauto 10. }
    destruct (decide (shipment_status s = TENDERED)) as [Hd | Hd].
    { right; right. exists s. rewrite (bool_decide_eq_false_2 _ Hb),
        (bool_decide_eq_true_2 _ Hd). simpl.
      unfold acceptedTender. simpl. eauto 10. }
    right; left. exists s.
    rewrite (bool_decide_eq_false_2 _ Hb), (bool_decide_eq_false_2 _ Hd).
    simpl. eauto 10.
  - left. split; [|done]. intros s' [= <-]. done.
Qed.

Section AssignDriverFacts.

Variable buildDispatchMessage : ShipmentEntity → DriverEntity → string.
Variable sendDispatchSms : DriverEntity → ShipmentEntity → string → SmsResult.
Variable toISOString : Z → string.

Local Abbreviation assignDriver :=
  (assignDriver buildDispatchMessage sendDispatchSms toISOString).

(** A shipment that [validateShipmentForDispatch] refuses ends
    [assignDriver] before the driver is read. *)
Lemma assignDriver_shipment_error now newId req user db e :
  validateShipmentForDispatch (req_shipmentId req) user db = inl e →
  assignDriver now newId req user db = (inl e, db).
Proof.
  intros Hv. unfold DispatchService.assignDriver, assignDriver_body.
  tx_unfold. by rewrite Hv.
Qed.


End AssignDriverFacts.

(** ** C9: the driver is not reached *)

(** C9.  Shipment s1 is BOOKED and its tender a is ACCEPTED; driver d1 is
    active, ACTIVE, licensed until 9000 and has no medical certificate and no
    assignment.  None of the four grounds holds at time 500, and yet no
    offer is created: assignDriver fails with "No accepted tender found for
    this shipment".  With a license that expired at 100 the driver is
    ineligible, and the request fails with the same error, which is none of
    the two by which a driver is turned down.  In both cases the store is
    unchanged. *)
Theorem eligible_driver_is_not_dispatched :
  shipment_status <$> shipments booked !! "s1" = Some BOOKED
  ∧ tenders booked !! "a" = Some (tender_row "a" "s1" "c1" ACCEPTED 1000)
  ∧ drivers booked !! "d1" = Some (driver_row "d1" ACTIVE (Some 9000) 7)
  ∧ ¬ spec_ineligible 500 (driver_row "d1" ACTIVE (Some 9000) 7)
  ∧ has_existing_assignment "s1" "d1" booked = false
  ∧ assignDriver plain_message sms_sent iso 500 "x9"
      (dispatch_request "s1" "d1") dispatcher booked
    = (inl (BadRequestException "No accepted tender found for this shipment"),
       booked)
  ∧ spec_ineligible 500 (driver_row "d1" ACTIVE (Some 100) 7)
  ∧ assignDriver plain_message sms_sent iso 500 "x9"
      (dispatch_request "s1" "d1") dispatcher booked_lapsed
    = (inl (BadRequestException "No accepted tender found for this shipment"),
       booked_lapsed)
  ∧ ¬ ineligibility_error (driver_row "d1" ACTIVE (Some 100) 7)
        (BadRequestException "No accepted tender found for this shipment").
Proof.
  split; [reflexivity|]. split; [reflexivity|]. split; [reflexivity|].
  split.
  { intros [H | [[H _] | [(d & Hd & Hlt) | (mc & d & Hmc & _)]]].
    - discriminate H.
    - apply H. reflexivity.
    - injection Hd as <-. lia.
    - discriminate Hmc. }
  split; [vm_compute; reflexivity|]. split; [vm_compute; reflexivity|].
  split.
  { right; right; left. exists 100. split; [reflexivity | lia]. }
  split; [vm_compute; reflexivity|].
  intros [H | H]; vm_compute in H; discriminate H.
Qed.

(** * Further properties of the workflow *)

Import TenderCreation ExtraVocabulary.

Lemma rejectTender_ok now tenderId carrierId reason user db t :
  tenders db !! tenderId = Some t →
  tender_carrierId t = carrierId →
  tender_status t = OFFERED →
  ∃ r, rejectTender now tenderId carrierId reason user db =
       (inr r,
        {| tenders :=
             alter (reject_patch t now reason user) tenderId (tenders db);
           shipments := shipments db;
           drivers := drivers db;
           assignments := assignments db |}).
Proof.
  intros Ht Hc Hs.
  unfold rejectTender, rejectTender_body, findTenderForResponse. tx_unfold.
  rewrite Ht, (bool_decide_eq_true_2 _ Hc), (bool_decide_eq_true_2 _ Hs).
  simpl. eauto.
Qed.

Lemma cancelTender_ok now tenderId reason user db t :
  tenders db !! tenderId = Some t →
  tender_status t ≠ CANCELLED →
  tender_status t ≠ EXPIRED →
  ∃ r, cancelTender now tenderId reason user db =
       (inr r,
        {| tenders :=
             alter (cancel_patch t now reason user) tenderId (tenders db);
           shipments :=
             if bool_decide (tender_status t = ACCEPTED)
             then alter (quote_patch user) (tender_shipmentId t)
                    (shipments db)
             else shipments db;
           drivers := drivers db;
           assignments := assignments db |}).
Proof.
  intros Ht Hc He.
  unfold cancelTender, cancelTender_body. tx_unfold.
  rewrite Ht, (bool_decide_eq_false_2 _ Hc), (bool_decide_eq_false_2 _ He).
  simpl. case_bool_decide; simpl; eauto.
Qed.

Section TenderLoadFacts.

Variable showNumber : Z → string.
Variable toISOString : Z → string.

Local Abbreviation tenderLoad := (tenderLoad showNumber toISOString).

Lemma tenderLoad_cases carriers now newId request user db :
  (∃ e, tenderLoad carriers now newId request user db = (inl e, db)
        ∧ (shipments db !! tr_shipmentId request = None
           ∨ (∃ s, shipments db !! tr_shipmentId request = Some s
                   ∧ (shipment_tenantId s ≠ user_companyId user
                      ∨ shipment_status s ≠ QUOTE))
           ∨ carriers !! tr_carrierId request = None
           ∨ (∃ c, carriers !! tr_carrierId request = Some c
                   ∧ carrier_status c ≠ CARRIER_ACTIVE)
           ∨ has_offered_tender (tr_shipmentId request) (tr_carrierId request)
               db = true))
  ∨ (∃ s c r,
       shipments db !! tr_shipmentId request = Some s
       ∧ shipment_tenantId s = user_companyId user
       ∧ shipment_status s = QUOTE
       ∧ carriers !! tr_carrierId request = Some c
       ∧ carrier_status c = CARRIER_ACTIVE
       ∧ has_offered_tender (tr_shipmentId request) (tr_carrierId request) db
         = false
       ∧ tenderLoad carriers now newId request user db
         = (inr r, tendered_store showNumber now newId request user c db)).
Proof.
  unfold TenderCreation.tenderLoad, tenderLoad_body,
    validateShipmentForTender, validateCarrierForTender, save_tender.
  tx_unfold.
  destruct (shipments db !! tr_shipmentId request) as [s|] eqn:Hs;
    [|left; eauto].
  case_bool_decide as Ht; simpl; [|left; eauto 10].
  case_bool_decide as Hq; simpl; [|left; eauto 10].
  destruct (carriers !! tr_carrierId request) as [c|] eqn:Hc;
    [|left; eauto 10].
  case_bool_decide as Ha; simpl; [|left; eauto 10].
  destruct (has_offered_tender _ _ db) eqn:Hex; simpl; [left; eauto 10|].
  right. eexists s, c, _. repeat split; try done.
Qed.


Lemma tenderLoad_ok carriers now newId request user db s c :
  shipments db !! tr_shipmentId request = Some s →
  shipment_tenantId s = user_companyId user →
  shipment_status s = QUOTE →
  carriers !! tr_carrierId request = Some c →
  carrier_status c = CARRIER_ACTIVE →
  has_offered_tender (tr_shipmentId request) (tr_carrierId request) db
  = false →
  ∃ r, tenderLoad carriers now newId request user db
       = (inr r, tendered_store showNumber now newId request user c db).
Proof.
  intros Hs Ht Hq Hc Ha Hex.
  destruct (tenderLoad_cases carriers now newId request user db)
    as [(e & _ & Hwhy) | (s' & c' & r & Hs' & _ & _ & Hc' & _ & _ & Hr)].
  - destruct Hwhy
      as [H | [(s' & Hs' & [H | H]) | [H | [(c' & Hc' & H) | H]]]];
      simplify_eq; congruence.
  - simplify_eq. eauto.
Qed.

(** X1.  tenderLoad succeeds exactly when the shipment exists in the
    caller's tenant and is a QUOTE, the carrier exists and is ACTIVE, and the
    carrier holds no OFFERED tender for the shipment.  A failure leaves the
    store unchanged; a success saves an OFFERED tender that expires the
    requested number of hours (24 by default) after now, sets the shipment
    to TENDERED with that carrier, and touches no other tender or
    shipment. *)
Theorem tenderLoad_outcome carriers now newId request user db :
  ((∃ r db', tenderLoad carriers now newId request user db = (inr r, db'))
   ↔ (∃ s c,
        shipments db !! tr_shipmentId request = Some s
        ∧ shipment_tenantId s = user_companyId user
        ∧ shipment_status s = QUOTE
        ∧ carriers !! tr_carrierId request = Some c
        ∧ carrier_status c = CARRIER_ACTIVE
        ∧ has_offered_tender (tr_shipmentId request) (tr_carrierId request)
            db = false))
  ∧ (∀ e db', tenderLoad carriers now newId request user db = (inl e, db') →
       db' = db)
  ∧ (∀ r db', tenderLoad carriers now newId request user db = (inr r, db') →
       tender_status <$> tenders db' !! newId = Some OFFERED
       ∧ tender_carrierId <$> tenders db' !! newId
         = Some (tr_carrierId request)
       ∧ offerExpiryDate <$> tenders db' !! newId
         = Some (Some (now + default 24 (offerExpiryHours request) * 3600000))
       ∧ shipment_status <$> shipments db' !! tr_shipmentId request
         = Some TENDERED
       ∧ shipment_carrierId <$> shipments db' !! tr_shipmentId request
         = Some (Some (tr_carrierId request))
       ∧ (∀ id, id ≠ newId → tenders db' !! id = tenders db !! id)
       ∧ (∀ id, id ≠ tr_shipmentId request →
            shipments db' !! id = shipments db !! id)).
Proof.
  destruct (tenderLoad_cases carriers now newId request user db)
    as [(e & Hr & Hwhy) | (s & c & r & Hs & Ht & Hq & Hc & Ha & Hex & Hr)];
    rewrite Hr.
  - split; [|split].
    + split; [intros (r & db' & H); discriminate H|].
      intros (s & c & Hs & Ht & Hq & Hc & Ha & Hex).
      destruct Hwhy as [H | [(s' & Hs' & [H | H]) | [H | [(c' & Hc' & H) | H]]]];
        simplify_eq; congruence.
    + intros e' db' [= _ <-]. done.
    + intros r db' H. discriminate H.
  - split; [|split].
    + split; [eauto 10|]. intros _. eauto.
    + intros e db' H. discriminate H.
    + intros r' db' [= _ <-]. unfold tendered_store. simpl.
      rewrite lookup_insert_eq, lookup_alter_eq, Hs. simpl.
      repeat split; try done.
      * intros id Hne. by rewrite lookup_insert_ne.
      * intros id Hne. by rewrite lookup_alter_ne.
Qed.

Lemma tenderLoad_requires_quote carriers now newId request user db s :
  shipments db !! tr_shipmentId request = Some s →
  shipment_status s ≠ QUOTE →
  ∃ e, tenderLoad carriers now newId request user db = (inl e, db).
Proof.
  intros Hs Hq.
  destruct (tenderLoad_cases carriers now newId request user db)
    as [(e & Hr & _) | (s' & c & r & Hs' & _ & Hq' & _)]; [eauto|].
  congruence.
Qed.

(** X2.  After a successful tenderLoad, every further tenderLoad for the
    same shipment -- to any carrier, by any user, at any time -- fails and
    leaves the store unchanged: the shipment is TENDERED, no longer a
    QUOTE. *)
Theorem tenderLoad_blocks_further_tenders carriers now newId request user db
    r db1 :
  tenderLoad carriers now newId request user db = (inr r, db1) →
  ∀ carriers' now' newId' request' user',
    tr_shipmentId request' = tr_shipmentId request →
    ∃ e, tenderLoad carriers' now' newId' request' user' db1 = (inl e, db1)
         ∧ (e = NotFoundException "Shipment not found"
            ∨ e = BadRequestException
                    "Shipment must be in QUOTE status to tender. Current status: TENDERED").
Proof.
  intros Hr carriers' now' newId' request' user' Hsame.
  destruct (tenderLoad_cases carriers now newId request user db)
    as [(e & Hr' & _) | (s & c & r0 & Hs & Ht & Hq & Hc & Ha & Hex & Hr')];
    rewrite Hr' in Hr; [discriminate Hr|].
  injection Hr as _ <-.
  unfold TenderCreation.tenderLoad, tenderLoad_body,
    validateShipmentForTender.
  tx_unfold. rewrite Hsame. unfold tendered_store at 1 2 3. simpl.
  rewrite lookup_alter_eq, Hs. simpl.
  case_bool_decide; simpl; eauto.
Qed.


(** X3.  When the carrier rejects a freshly tendered load, or the tender is
    cancelled while still OFFERED, the shipment stays TENDERED; so every
    later tenderLoad for the shipment fails. *)
Theorem declined_offer_leaves_shipment_tendered carriers now newId request
    user db r db1 :
  tenderLoad carriers now newId request user db = (inr r, db1) →
  (∀ now1 reason user1,
     ∃ r2 db2,
       rejectTender now1 newId (tr_carrierId request) reason user1 db1
       = (inr r2, db2)
       ∧ tender_status <$> tenders db2 !! newId = Some REJECTED
       ∧ shipment_status <$> shipments db2 !! tr_shipmentId request
         = Some TENDERED
       ∧ ∀ carriers' now' newId' request' user',
           tr_shipmentId request' = tr_shipmentId request →
           ∃ e, tenderLoad carriers' now' newId' request' user' db2
                = (inl e, db2))
  ∧ (∀ now1 reason user1,
       ∃ r2 db2,
         cancelTender now1 newId reason user1 db1 = (inr r2, db2)
         ∧ tender_status <$> tenders db2 !! newId = Some CANCELLED
         ∧ shipment_status <$> shipments db2 !! tr_shipmentId request
           = Some TENDERED
         ∧ ∀ carriers' now' newId' request' user',
             tr_shipmentId request' = tr_shipmentId request →
             ∃ e, tenderLoad carriers' now' newId' request' user' db2
                  = (inl e, db2)).
Proof.
  intros Hr.
  destruct (tenderLoad_cases carriers now newId request user db)
    as [(e & Hr' & _) | (s & c & r0 & Hs & Ht & Hq & Hc & Ha & Hex & Hr')];
    rewrite Hr' in Hr; [discriminate Hr|].
  injection Hr as _ <-.
  set (t := new_tender showNumber now newId request user c).
  assert (Hnew : tenders (tendered_store showNumber now newId request user c db) !! newId
                 = Some t) by (simpl; apply lookup_insert_eq).
  assert (Hship : shipments (tendered_store showNumber now newId request user c db)
                  !! tr_shipmentId request
                  = Some (tendered_patch (tr_carrierId request) user s))
    by (simpl; by rewrite lookup_alter_eq, Hs).
  split; intros now1 reason user1.
  - destruct (rejectTender_ok now1 newId (tr_carrierId request) reason user1
                _ t Hnew eq_refl eq_refl) as [r2 Hr2].
    eexists r2, _. split; [exact Hr2|]. simpl.
    rewrite lookup_alter_eq, lookup_insert_eq, lookup_alter_eq, Hs. simpl.
    split; [done|]. split; [done|].
    intros carriers' now' newId' request' user' Hsame.
    eapply tenderLoad_requires_quote.
    + rewrite Hsame. simpl. by rewrite lookup_alter_eq, Hs.
    + done.
  - destruct (cancelTender_ok now1 newId reason user1 _ t Hnew)
      as [r2 Hr2]; [done | done |].
    eexists r2, _. split; [exact Hr2|]. simpl.
    rewrite lookup_alter_eq, lookup_insert_eq, lookup_alter_eq, Hs. simpl.
    split; [done|]. split; [done|].
    intros carriers' now' newId' request' user' Hsame.
    eapply tenderLoad_requires_quote.
    + rewrite Hsame. simpl. by rewrite lookup_alter_eq, Hs.
    + done.
Qed.

(** X4.  A tender created by tenderLoad can be accepted by its carrier at
    any instant up to and including its expiry, now + hours * 3600000 ms,
    and is refused with "Tender has expired" at any later instant. *)
Theorem offer_window carriers now newId request user db r db1 :
  tenderLoad carriers now newId request user db = (inr r, db1) →
  (∀ now1 user1,
     now1 ≤ now + default 24 (offerExpiryHours request) * 3600000 →
     ∃ r1 db2,
       acceptTender now1 newId (tr_carrierId request) user1 db1
       = (inr r1, db2)
       ∧ tender_status <$> tenders db2 !! newId = Some ACCEPTED)
  ∧ (∀ now1 user1,
       now + default 24 (offerExpiryHours request) * 3600000 < now1 →
       acceptTender now1 newId (tr_carrierId request) user1 db1
       = (inl (BadRequestException "Tender has expired"), db1)).
Proof.
  intros Hr.
  destruct (tenderLoad_cases carriers now newId request user db)
    as [(e & Hr' & _) | (s & c & r0 & Hs & Ht & Hq & Hc & Ha & Hex & Hr')];
    rewrite Hr' in Hr; [discriminate Hr|].
  injection Hr as _ <-.
  set (t := new_tender showNumber now newId request user c).
  assert (Hnew : tenders (tendered_store showNumber now newId request user c db) !! newId
                 = Some t) by (simpl; apply lookup_insert_eq).
  split; intros now1 user1 Hle.
  - destruct (acceptTender_ok now1 newId (tr_carrierId request) user1 _ t
                Hnew eq_refl eq_refl) as [r1 Hr1].
    { simpl. unfold addHours. apply Z.ltb_ge. lia. }
    eexists r1, _. split; [exact Hr1|]. simpl.
    rewrite lookup_fmap, lookup_alter_eq, lookup_insert_eq. simpl.
    by rewrite cascade_terminal.
  - unfold acceptTender, acceptTender_body, findTenderForResponse. tx_unfold.
    rewrite Hnew. simpl. rewrite bool_decide_eq_true_2 by done. simpl.
    unfold addHours. by rewrite (proj2 (Z.ltb_lt _ _) Hle).
Qed.


Lemma has_offered_tender_false shipmentId carrierId db :
  (∀ id t, tenders db !! id = Some t →
     tender_shipmentId t = shipmentId → tender_status t ≠ OFFERED) →
  has_offered_tender shipmentId carrierId db = false.
Proof.
  intros Hnone. unfold has_offered_tender. apply bool_decide_eq_false_2.
  intros (id & t & Ht & Hsid & _ & Hoff). by eapply Hnone.
Qed.

(** X5.  Accepting an OFFERED tender and then cancelling it puts the
    shipment back to QUOTE with no carrier and leaves the tender CANCELLED;
    the shipment can then be tendered again to any ACTIVE carrier by a user
    of the shipment's tenant. *)
Theorem accept_then_cancel_reopens_shipment now tenderId carrierId user db t
    expiry s :
  tenders db !! tenderId = Some t →
  tender_carrierId t = carrierId →
  tender_status t = OFFERED →
  offerExpiryDate t = Some expiry →
  now ≤ expiry →
  shipments db !! tender_shipmentId t = Some s →
  ∃ r1 db1,
    acceptTender now tenderId carrierId user db = (inr r1, db1)
    ∧ ∀ now2 reason user2,
        ∃ r2 db2,
          cancelTender now2 tenderId reason user2 db1 = (inr r2, db2)
          ∧ tender_status <$> tenders db2 !! tenderId = Some CANCELLED
          ∧ shipment_status <$> shipments db2 !! tender_shipmentId t
            = Some QUOTE
          ∧ shipment_carrierId <$> shipments db2 !! tender_shipmentId t
            = Some None
          ∧ ∀ carriers now3 newId request user3 c,
              tr_shipmentId request = tender_shipmentId t →
              user_companyId user3 = shipment_tenantId s →
              carriers !! tr_carrierId request = Some c →
              carrier_status c = CARRIER_ACTIVE →
              ∃ r3 db3,
                tenderLoad carriers now3 newId request user3 db2
                = (inr r3, db3).
Proof.
  intros Ht Hc Hs He Hle Hsh.
  assert (Hd : date_after now (offerExpiryDate t) = false).
  { rewrite He. simpl. apply Z.ltb_ge. done. }
  destruct (acceptTender_ok now tenderId carrierId user db t Ht Hc Hs Hd)
    as [r1 Hr1].
  eexists r1, _. split; [exact Hr1|]. intros now2 reason user2.
  set (db1 := {| tenders := _; shipments := _; drivers := drivers db;
                 assignments := assignments db |}).
  assert (Hlook : ∀ id,
    tenders db1 !! id
    = if decide (tenderId = id) then Some (accept_patch t now user t)
      else cascade now (tender_shipmentId t) <$> tenders db !! id).
  { intros id. simpl. rewrite lookup_fmap.
    destruct (decide (tenderId = id)) as [<-|].
    - rewrite lookup_alter_eq, Ht. simpl. by rewrite cascade_terminal.
    - by rewrite lookup_alter_ne. }
  assert (Ht1 : tenders db1 !! tenderId = Some (accept_patch t now user t))
    by (rewrite Hlook; by rewrite decide_True).
  assert (Hsh1 : shipments db1 !! tender_shipmentId t
                 = Some (booked_patch t user s))
    by (simpl; by rewrite lookup_alter_eq, Hsh).
  clearbody db1.
  destruct (cancelTender_ok now2 tenderId reason user2 db1 _ Ht1)
    as [r2 Hr2]; [done | done |].
  eexists r2, _. split; [exact Hr2|]. simpl.
  rewrite !lookup_alter_eq, Ht1, Hsh1. simpl.
  split; [done|]. split; [done|]. split; [done|].
  intros carriers now3 newId request user3 c Hsame Htenant Hcar Hact.
  match goal with
  | |- ∃ r3 db3, _ _ _ _ _ _ _ ?db2 = _ =>
      destruct (tenderLoad_ok carriers now3 newId request user3 db2
                  (quote_patch user2 (booked_patch t user s)) c)
        as [r3 Hr3]; [| | | exact Hcar | exact Hact | | by eauto]
  end.
  - rewrite Hsame. simpl. rewrite !lookup_alter_eq, Hsh1. reflexivity.
  - simpl. done.
  - reflexivity.
  - apply has_offered_tender_false. intros id t'. simpl.
    destruct (decide (tenderId = id)) as [<-|Hne].
    + rewrite lookup_alter_eq, Ht1. simpl. intros [= <-]. done.
    + rewrite lookup_alter_ne, Hlook, decide_False by done.
      destruct (tenders db !! id) as [t0|]; simpl; [|done].
      intros [= <-]. unfold cascade. rewrite Hsame.
      destruct (bool_decide (tender_shipmentId t0 = tender_shipmentId t))
        eqn:H1;
        destruct (bool_decide (tender_status t0 = OFFERED)) eqn:H2;
        simpl; try done.
      * apply bool_decide_eq_false in H2. done.
      * apply bool_decide_eq_false in H1. done.
      * apply bool_decide_eq_false in H1. done.
Qed.

End TenderLoadFacts.

(** X6.  acceptTender and rejectTender answer "Tender not found", with the
    store unchanged, exactly when the tender does not exist or belongs to
    another carrier: a carrier cannot tell a foreign tender from a missing
    one. *)
Theorem tender_not_found_iff now tenderId carrierId reason user db :
  (acceptTender now tenderId carrierId user db
   = (inl (NotFoundException "Tender not found"), db)
   ↔ (∀ t, tenders db !! tenderId = Some t → tender_carrierId t ≠ carrierId))
  ∧ (rejectTender now tenderId carrierId reason user db
     = (inl (NotFoundException "Tender not found"), db)
     ↔ (∀ t, tenders db !! tenderId = Some t →
          tender_carrierId t ≠ carrierId)).
Proof.
  unfold acceptTender, acceptTender_body, rejectTender, rejectTender_body,
    findTenderForResponse, rejectOtherTenders.
  tx_unfold.
  destruct (tenders db !! tenderId) as [t|] eqn:Ht; [|by split; split].
  case_bool_decide as Hc; simpl.
  - split; split.
    1,3: case_bool_decide; simpl; [|discriminate];
         try destruct (date_after _ _); simpl; discriminate.
    all: intros H; exfalso; by apply (H t).
  - split; split; try done; intros _ t' [= <-]; done.
Qed.

(** X7.  An OFFERED tender whose offerExpiryDate is null cannot be
    accepted at any instant after the epoch: the comparison with null
    counts it as expired. *)
Theorem unset_expiry_is_expired now tenderId carrierId user db t :
  tenders db !! tenderId = Some t →
  tender_carrierId t = carrierId →
  tender_status t = OFFERED →
  offerExpiryDate t = None →
  0 < now →
  acceptTender now tenderId carrierId user db
  = (inl (BadRequestException "Tender has expired"), db).
Proof.
  intros Ht Hc Hs He Hnow.
  unfold acceptTender, acceptTender_body, findTenderForResponse. tx_unfold.
  rewrite Ht, (bool_decide_eq_true_2 _ Hc), (bool_decide_eq_true_2 _ Hs).
  simpl. rewrite He. simpl. by rewrite (proj2 (Z.ltb_lt _ _) Hnow).
Qed.

(** X8.  A successful acceptTender, rejectTender or cancelTender leaves the
    addressed tender with its old audit trail followed by exactly one entry,
    stamped now and with the caller's id, whose action is ACCEPTED,
    REJECTED or CANCELLED and whose note is the fixed text, the reason (or
    "No reason provided"), or the cancellation reason. *)
Theorem direct_transitions_extend_audit_trail now tenderId user db t :
  tenders db !! tenderId = Some t →
  (∀ carrierId r db',
     acceptTender now tenderId carrierId user db = (inr r, db') →
     auditTrail <$> tenders db' !! tenderId
     = Some (Some (or_empty (auditTrail t)
                   ++ [ {| action := "ACCEPTED"; timestamp := now;
                           userId := Some (user_id user);
                           notes := Some "Tender accepted by carrier" |} ])%list))
  ∧ (∀ carrierId reason r db',
       rejectTender now tenderId carrierId reason user db = (inr r, db') →
       auditTrail <$> tenders db' !! tenderId
       = Some (Some (or_empty (auditTrail t)
                     ++ [ {| action := "REJECTED"; timestamp := now;
                             userId := Some (user_id user);
                             notes := Some (reason_or_default reason) |} ])%list))
  ∧ (∀ reason r db',
       cancelTender now tenderId reason user db = (inr r, db') →
       auditTrail <$> tenders db' !! tenderId
       = Some (Some (or_empty (auditTrail t)
                     ++ [ {| action := "CANCELLED"; timestamp := now;
                             userId := Some (user_id user);
                             notes := Some reason |} ])%list)).
Proof.
  intros Ht. split; [|split].
  - intros carrierId r db' Hr.
    destruct (acceptTender_inv now tenderId carrierId user db)
      as [[e He] | (t' & r' & Ht' & _ & _ & _ & Hr')]; [congruence|].
    rewrite Hr' in Hr. injection Hr as _ <-. simplify_eq. simpl.
    rewrite lookup_fmap, lookup_alter_eq, Ht. simpl.
    by rewrite cascade_terminal.
  - intros carrierId reason r db' Hr.
    destruct (rejectTender_inv now tenderId carrierId reason user db)
      as [[e He] | (t' & r' & Ht' & _ & _ & Hr')]; [congruence|].
    rewrite Hr' in Hr. injection Hr as _ <-. simplify_eq. simpl.
    by rewrite lookup_alter_eq, Ht.
  - intros reason r db' Hr.
    destruct (cancelTender_inv now tenderId reason user db)
      as [[e He] | (t' & r' & Ht' & _ & _ & Hr')]; [congruence|].
    rewrite Hr' in Hr. injection Hr as _ <-. simplify_eq. simpl.
    by rewrite lookup_alter_eq, Ht.
Qed.

(** X9.  A successful acceptTender leaves the drivers, the assignments,
    every other shipment, and every other tender that belongs to another
    shipment or is not OFFERED exactly as they were, and neither adds nor
    removes a tender. *)
Theorem acceptTender_frame now tenderId carrierId user db r db' t :
  acceptTender now tenderId carrierId user db = (inr r, db') →
  tenders db !! tenderId = Some t →
  drivers db' = drivers db
  ∧ assignments db' = assignments db
  ∧ dom (tenders db') = dom (tenders db)
  ∧ (∀ id, id ≠ tender_shipmentId t →
       shipments db' !! id = shipments db !! id)
  ∧ (∀ id t', id ≠ tenderId →
       tenders db !! id = Some t' →
       tender_shipmentId t' ≠ tender_shipmentId t
       ∨ tender_status t' ≠ OFFERED →
       tenders db' !! id = Some t').
Proof.
  intros Hr Ht.
  destruct (acceptTender_inv now tenderId carrierId user db)
    as [[e He] | (t' & r' & Ht' & _ & _ & _ & Hr')]; [congruence|].
  rewrite Hr' in Hr. injection Hr as _ <-. simplify_eq. simpl.
  split; [done|]. split; [done|]. split; [|split].
  - apply set_eq. intros id.
    rewrite !elem_of_dom, lookup_fmap, fmap_is_Some.
    destruct (decide (tenderId = id)) as [<-|Hne].
    + rewrite lookup_alter_eq, Ht. simpl. split; eauto.
    + by rewrite lookup_alter_ne.
  - intros id Hne. by rewrite lookup_alter_ne.
  - intros id t' Hne Hid Hother.
    rewrite lookup_fmap, lookup_alter_ne, Hid by done. simpl. f_equal.
    unfold cascade. destruct Hother as [H | H].
    + by rewrite (bool_decide_eq_false_2 _ H).
    + rewrite (bool_decide_eq_false_2 _ H). by rewrite andb_false_r.
Qed.

(** X10.  The accept, reject and cancel endpoints answer with the new
    status but with the date and note columns of the tender as read before
    the update: acceptedDate, rejectedDate, responseNotes, cancelledDate and
    cancellationReason of the answer are the old values, while the stored
    row carries now (and the reason). *)
Theorem tender_endpoints_report_stale_columns now tenderId user db t :
  tenders db !! tenderId = Some t →
  (∀ answer db',
     CarriersController.acceptTender now tenderId user db
     = (inr answer, db') →
     CarriersController.accept_status (CarriersController.data answer)
     = ACCEPTED
     ∧ CarriersController.accept_acceptedDate (CarriersController.data answer)
       = acceptedDate t
     ∧ acceptedDate <$> tenders db' !! tenderId = Some (Some now))
  ∧ (∀ reason answer db',
       CarriersController.rejectTender now tenderId reason user db
       = (inr answer, db') →
       CarriersController.reject_status (CarriersController.data answer)
       = REJECTED
       ∧ CarriersController.reject_rejectedDate
           (CarriersController.data answer) = rejectedDate t
       ∧ CarriersController.reject_responseNotes
           (CarriersController.data answer) = responseNotes t
       ∧ rejectedDate <$> tenders db' !! tenderId = Some (Some now))
  ∧ (∀ reason answer db',
       CarriersController.cancelTender now tenderId reason user db
       = (inr answer, db') →
       CarriersController.cancel_status (CarriersController.data answer)
       = CANCELLED
       ∧ CarriersController.cancel_cancelledDate
           (CarriersController.data answer) = cancelledDate t
       ∧ CarriersController.cancel_cancellationReason
           (CarriersController.data answer) = cancellationReason t
       ∧ cancelledDate <$> tenders db' !! tenderId = Some (Some now)
       ∧ cancellationReason <$> tenders db' !! tenderId
         = Some (Some reason)).
Proof.
  intros Ht. split; [|split].
  - intros answer db'. unfold CarriersController.acceptTender.
    unfold acceptTender, acceptTender_body, findTenderForResponse,
      rejectOtherTenders.
    tx_unfold. rewrite Ht.
    case_bool_decide; [|discriminate].
    case_bool_decide; simpl; [|discriminate].
    destruct (date_after _ _); simpl; [discriminate|].
    intros [= <- <-]. simpl.
    rewrite lookup_fmap, lookup_alter_eq, Ht. simpl.
    by rewrite andb_false_r.
  - intros reason answer db'. unfold CarriersController.rejectTender.
    unfold rejectTender, rejectTender_body, findTenderForResponse.
    tx_unfold. rewrite Ht.
    case_bool_decide; [|discriminate].
    case_bool_decide; simpl; [|discriminate].
    intros [= <- <-]. simpl. by rewrite lookup_alter_eq, Ht.
  - intros reason answer db'. unfold CarriersController.cancelTender.
    unfold cancelTender, cancelTender_body.
    tx_unfold. rewrite Ht.
    case_bool_decide; simpl; [discriminate|].
    case_bool_decide; simpl; [discriminate|].
    case_bool_decide; simpl; intros [= <- <-]; simpl;
      by rewrite lookup_alter_eq, Ht.
Qed.

Section AssignDriverMore.

Variable buildDispatchMessage : ShipmentEntity → DriverEntity → string.
Variable sendDispatchSms : DriverEntity → ShipmentEntity → string → SmsResult.
Variable toISOString : Z → string.

Local Abbreviation assignDriver :=
  (assignDriver buildDispatchMessage sendDispatchSms toISOString).

(** X11.  assignDriver creates no assignment: for every request, user and
    store it fails and leaves the store unchanged.  A missing or foreign
    shipment gives "Shipment not found"; a shipment of the caller's tenant
    that is neither BOOKED nor TENDERED gives the status error; a BOOKED or
    TENDERED one gives "No accepted tender found for this shipment", whatever
    tenders are stored for it and whatever the driver. *)
Theorem assignDriver_never_dispatches now newId req user db :
  (∃ e, assignDriver now newId req user db = (inl e, db))
  ∧ ((∀ s, shipments db !! req_shipmentId req = Some s →
           shipment_tenantId s ≠ user_companyId user) →
     assignDriver now newId req user db
     = (inl (NotFoundException "Shipment not found"), db))
  ∧ (∀ s, shipments db !! req_shipmentId req = Some s →
          shipment_tenantId s = user_companyId user →
          (shipment_status s ≠ BOOKED ∧ shipment_status s ≠ TENDERED →
           assignDriver now newId req user db
           = (inl (BadRequestException
                     ("Shipment must be BOOKED or TENDERED to dispatch. Current status: "
                      +:+ ShipmentStatus_value (shipment_status s))), db))
          ∧ (shipment_status s = BOOKED ∨ shipment_status s = TENDERED →
             assignDriver now newId req user db
             = (inl (BadRequestException
                       "No accepted tender found for this shipment"), db))).
Proof.
  split; [|split].
  - destruct (validateShipmentForDispatch_cases (req_shipmentId req) user db)
      as [[_ Hv] | [(s & _ & _ & _ & _ & Hv) | (s & _ & _ & _ & Hv)]];
      rewrite (assignDriver_shipment_error _ _ _ now newId req user db _ Hv);
      eauto.
  - intros Hforeign.
    destruct (validateShipmentForDispatch_cases (req_shipmentId req) user db)
      as [[_ Hv] | [(s & Hs & Ht & _) | (s & Hs & Ht & _)]].
    + exact (assignDriver_shipment_error _ _ _ now newId req user db _ Hv).
    + by destruct (Hforeign s Hs).
    + by destruct (Hforeign s Hs).
  - intros s Hs Ht.
    destruct (validateShipmentForDispatch_cases (req_shipmentId req) user db)
      as [[Hno _] | [(s' & Hs' & _ & Hb & Htd & Hv)
                     | (s' & Hs' & _ & Hst & Hv)]].
    + by destruct (Hno s Hs).
    + rewrite Hs in Hs'. injection Hs' as <-. split.
      * intros _.
        exact (assignDriver_shipment_error _ _ _ now newId req user db _ Hv).
      * intros [H | H]; done.
    + rewrite Hs in Hs'. injection Hs' as <-. split.
      * intros [Hb Htd]. destruct Hst; done.
      * intros _.
        exact (assignDriver_shipment_error _ _ _ now newId req user db _ Hv).
Qed.

End AssignDriverMore.

(** X12.  The response "1" to a DISPATCHED assignment leaves the driver
    ON_LOAD with one completed load more than before; the response "2"
    leaves the driver ACTIVE and the number of completed loads as it was.
    Neither touches the last dispatch date. *)
Theorem driver_response_load_counter now driverId assignmentId user db a d :
  assignments db !! assignmentId = Some a →
  assignment_driverId a = driverId →
  assignment_status a = DISPATCHED →
  drivers db !! driverId = Some d →
  (∃ r db',
     processDriverResponse now driverId "1" assignmentId user db
     = (inr r, db')
     ∧ driver_status <$> drivers db' !! driverId = Some ON_LOAD
     ∧ completedLoads <$> drivers db' !! driverId
       = Some (completedLoads d + 1)
     ∧ lastDispatchDate <$> drivers db' !! driverId
       = Some (lastDispatchDate d))
  ∧ (∃ r db',
       processDriverResponse now driverId "2" assignmentId user db
       = (inr r, db')
       ∧ driver_status <$> drivers db' !! driverId = Some ACTIVE
       ∧ completedLoads <$> drivers db' !! driverId
         = Some (completedLoads d)
       ∧ lastDispatchDate <$> drivers db' !! driverId
         = Some (lastDispatchDate d)).
Proof.
  intros Ha Hdrv Hs Hd. split.
  - destruct (processDriverResponse_confirm now driverId assignmentId user
                db a d Ha Hdrv Hs Hd) as [r Hr].
    eexists r, _. split; [exact Hr|]. simpl.
    rewrite lookup_alter_eq, Hd. done.
  - destruct (processDriverResponse_reject now driverId assignmentId user
                db a d Ha Hdrv Hs Hd) as [r Hr].
    eexists r, _. split; [exact Hr|]. simpl.
    rewrite lookup_alter_eq, Hd. done.
Qed.

Import DispatchQueries.

(** X14.  processDriverResponse answers "Dispatch assignment not found"
    exactly when the assignment does not exist or belongs to another driver;
    a response code other than "1" and "2" to a DISPATCHED assignment gives
    "Invalid response code"; every failure leaves the store unchanged. *)
Theorem processDriverResponse_refusals now driverId response assignmentId
    user db :
  (processDriverResponse now driverId response assignmentId user db
   = (inl (NotFoundException "Dispatch assignment not found"), db)
   ↔ (∀ a, assignments db !! assignmentId = Some a →
           assignment_driverId a ≠ driverId))
  ∧ (∀ a, assignments db !! assignmentId = Some a →
          assignment_driverId a = driverId →
          assignment_status a = DISPATCHED →
          response ≠ "1" → response ≠ "2" →
          processDriverResponse now driverId response assignmentId user db
          = (inl (BadRequestException "Invalid response code"), db))
  ∧ (∀ e db',
       processDriverResponse now driverId response assignmentId user db
       = (inl e, db') → db' = db).
Proof.
  split; [|split].
  - unfold processDriverResponse, processDriverResponse_body, joined_driver.
    tx_unfold.
    destruct (assignments db !! assignmentId) as [a|] eqn:Ha; [|by split].
    case_bool_decide as Hd; simpl.
    + split; [|intros H; by destruct (H a)].
      case_bool_decide; simpl; [|discriminate].
      rewrite Hd.
      repeat (case_bool_decide; simpl);
        destruct (drivers db !! driverId); simpl; discriminate.
    + split; [|done]. intros _ a' [= <-]. done.
  - intros a Ha Hd Hs H1 H2.
    unfold processDriverResponse, processDriverResponse_body. tx_unfold.
    rewrite Ha, (bool_decide_eq_true_2 _ Hd), (bool_decide_eq_true_2 _ Hs).
    simpl.
    by rewrite (bool_decide_eq_false_2 _ H1), (bool_decide_eq_false_2 _ H2).
  - intros e db' Hr.
    destruct (processDriverResponse_inv now driverId response assignmentId
                user db)
      as [[e' He] | (a & d & r & _ & _ & _ & _ & [[_ Hr'] | [_ Hr']])];
      congruence.
Qed.

(** X15.  A successful processDriverResponse changes no tender, no other
    assignment, no other driver and no other shipment; it appends one
    SMS_RESPONSE entry to the assignment's communication log, and sets
    exactly one of confirmedAt and rejectedAt to now, the other to null,
    according to the response. *)
Theorem processDriverResponse_effect now driverId response assignmentId user
    db r db' a :
  processDriverResponse now driverId response assignmentId user db
  = (inr r, db') →
  assignments db !! assignmentId = Some a →
  tenders db' = tenders db
  ∧ (∀ id, id ≠ assignmentId →
       assignments db' !! id = assignments db !! id)
  ∧ (∀ id, id ≠ driverId → drivers db' !! id = drivers db !! id)
  ∧ (∀ id, id ≠ assignment_shipmentId a →
       shipments db' !! id = shipments db !! id)
  ∧ communicationLog <$> assignments db' !! assignmentId
    = Some (Some (or_empty (communicationLog a)
                  ++ [ SMS_RESPONSE now response (user_id user)
                         "processed" ])%list)
  ∧ ((response = "1"
      ∧ assignment_status <$> assignments db' !! assignmentId
        = Some CONFIRMED
      ∧ confirmedAt <$> assignments db' !! assignmentId = Some (Some now)
      ∧ rejectedAt <$> assignments db' !! assignmentId = Some None)
     ∨ (response = "2"
        ∧ assignment_status <$> assignments db' !! assignmentId
          = Some DISPATCH_REJECTED
        ∧ confirmedAt <$> assignments db' !! assignmentId = Some None
        ∧ rejectedAt <$> assignments db' !! assignmentId
          = Some (Some now))).
Proof.
  intros Hr Ha.
  destruct (processDriverResponse_inv now driverId response assignmentId
              user db)
    as [[e' He] | (a' & d & r' & Ha' & _ & _ & _ & [[-> Hr'] | [-> Hr']])];
    [congruence | |]; rewrite Hr' in Hr; injection Hr as _ <-;
    simplify_eq; simpl; rewrite lookup_alter_eq, Ha; simpl.
  - split; [done|]. split; [by intros; rewrite lookup_alter_ne|].
    split; [by intros; rewrite lookup_alter_ne|].
    split; [by intros; rewrite lookup_alter_ne|].
    split; [done|]. left. done.
  - split; [done|]. split; [by intros; rewrite lookup_alter_ne|].
    split; [by intros; rewrite lookup_alter_ne|].
    split; [by intros; rewrite lookup_alter_ne|].
    split; [done|]. right. done.
Qed.

Section QueryFacts.

Variable newest_first :
  list (string * DispatchAssignmentEntity)
  → list (string * DispatchAssignmentEntity).
Hypothesis newest_first_perm : ∀ l, newest_first l ≡ₚ l.

Lemma in_newest_first_filter p (m : gmap string DispatchAssignmentEntity) x :
  In x (newest_first (List.filter p (map_to_list m)))
  ↔ m !! x.1 = Some x.2 ∧ p x = true.
Proof.
  rewrite <- list_elem_of_In, newest_first_perm, list_elem_of_In, filter_In.
  rewrite <- list_elem_of_In. destruct x as [k a]. simpl.
  by rewrite elem_of_map_to_list.
Qed.

(** X16.  GET assignments/:id looks the assignment up among the assignments
    of the shipment whose id is the given assignment id: it finds an
    existing assignment only when the assignment's shipment id equals its
    own id, and answers "Assignment not found" otherwise. *)
Theorem findAssignment_needs_matching_shipment_id id db :
  (∀ a, assignments db !! id = Some a →
        assignment_shipmentId a = id →
        findAssignment newest_first id db
        = {| fa_success := true; fa_message := None;
             fa_data := Some (id, a) |})
  ∧ ((∀ a, assignments db !! id = Some a → assignment_shipmentId a ≠ id) →
     findAssignment newest_first id db
     = {| fa_success := false; fa_message := Some "Assignment not found";
          fa_data := None |}).
Proof.
  unfold findAssignment, getAssignmentsForShipment.
  set (p := λ row : string * DispatchAssignmentEntity,
              bool_decide (assignment_shipmentId row.2 = id)).
  set (q := λ a : string * DispatchAssignmentEntity, bool_decide (a.1 = id)).
  destruct (List.find q (newest_first (List.filter p
              (map_to_list (assignments db))))) as [[k a']|] eqn:Hfind.
  - apply find_some in Hfind as [Hin Hq].
    apply in_newest_first_filter in Hin as [Hlook Hp].
    apply bool_decide_eq_true in Hq, Hp. simpl in *. subst k.
    split.
    + intros a Ha _. by simplify_eq.
    + intros Hno. by destruct (Hno a' Hlook).
  - split; [|done]. intros a Ha Hs. exfalso.
    assert (Hin : In (id, a) (newest_first (List.filter p
                    (map_to_list (assignments db))))).
    { apply in_newest_first_filter. split; [done|].
      by apply bool_decide_eq_true. }
    pose proof (find_none _ _ Hfind _ Hin) as Hq.
    apply bool_decide_eq_false in Hq. done.
Qed.

End QueryFacts.

Section AvailabilityFacts.

Variable buildDispatchMessage : ShipmentEntity → DriverEntity → string.
Variable sendDispatchSms : DriverEntity → ShipmentEntity → string → SmsResult.
Variable toISOString : Z → string.
Variable newest_first :
  list (string * DispatchAssignmentEntity)
  → list (string * DispatchAssignmentEntity).

Local Abbreviation assignDriver :=
  (assignDriver buildDispatchMessage sendDispatchSms toISOString).


(** X13.  For a driver on file, getDriverAvailability reports the driver as
    not available exactly when the driver's status is neither ACTIVE nor
    OFF_DUTY, or the license expired before now, or the medical certificate
    on file expired before now.  A date that is not set, or that is now
    itself, does not count as expired. *)
Theorem availability_report_grounds now driverId db d :
  drivers db !! driverId = Some d →
  ∃ report,
    getDriverAvailability newest_first now driverId db = inr report
    ∧ (da_isAvailable report = false
       ↔ (driver_status d ≠ ACTIVE ∧ driver_status d ≠ OFF_DUTY)
         ∨ (∃ t, licenseExpirationDate d = Some t ∧ t < now)
         ∨ (∃ mc t, medicalCertificate d = Some mc
                    ∧ expirationDate mc = Some t ∧ t < now)).
Proof.
  intros Hd. unfold getDriverAvailability. rewrite Hd.
  eexists. split; [reflexivity|]. simpl. apply isDriverAvailable_false.
Qed.

Hypothesis newest_first_perm : ∀ l, newest_first l ≡ₚ l.

(** X18.  For a driver on file, getDriverAvailability reports no current
    assignment exactly when the driver has no DISPATCHED and no CONFIRMED
    assignment in the store; a current assignment it reports is a stored
    assignment of that driver in one of these two states.  The report does
    not relate the two answers: a driver who is ON_LOAD is reported as not
    available, with or without a current assignment. *)
Theorem availability_report_current_assignment now driverId db d :
  drivers db !! driverId = Some d →
  ∃ report,
    getDriverAvailability newest_first now driverId db = inr report
    ∧ (da_currentAssignment report = None
       ↔ ∀ k a, assignments db !! k = Some a →
                assignment_driverId a = driverId →
                assignment_status a ≠ DISPATCHED
                ∧ assignment_status a ≠ CONFIRMED)
    ∧ (∀ k a, da_currentAssignment report = Some (k, a) →
              assignments db !! k = Some a
              ∧ assignment_driverId a = driverId
              ∧ (assignment_status a = DISPATCHED
                 ∨ assignment_status a = CONFIRMED))
    ∧ (driver_status d = ON_LOAD → da_isAvailable report = false).
Proof.
  intros Hd. unfold getDriverAvailability. rewrite Hd.
  eexists. split; [reflexivity|]. simpl.
  set (p := λ row : string * DispatchAssignmentEntity, _ && (_ || _)).
  assert (Hp : ∀ k a, p (k, a) = true
                      ↔ assignment_driverId a = driverId
                        ∧ (assignment_status a = DISPATCHED
                           ∨ assignment_status a = CONFIRMED)).
  { intros k a. unfold p. simpl.
    rewrite andb_true_iff, orb_true_iff, !bool_decide_eq_true. done. }
  split; [|split].
  - destruct (head (newest_first (List.filter p
                (map_to_list (assignments db))))) as [[k a]|] eqn:Hhead.
    + split; [done|]. intros Hnone. exfalso.
      assert (Hin : In (k, a) (newest_first (List.filter p
                      (map_to_list (assignments db))))).
      { destruct (newest_first _); simpl in *; [done|]. left. congruence. }
      apply (in_newest_first_filter newest_first newest_first_perm) in Hin
        as [Hlook Hpk].
      apply Hp in Hpk as [Hdrv Hst]. simpl in Hlook.
      destruct (Hnone k a Hlook Hdrv) as [H1 H2]. destruct Hst; done.
    + split; [|done]. intros _ k a Hlook Hdrv.
      destruct (decide (assignment_status a = DISPATCHED
                        ∨ assignment_status a = CONFIRMED)) as [Hst | Hst];
        [|split; intros H; apply Hst; auto].
      exfalso.
      assert (Hin : In (k, a) (newest_first (List.filter p
                      (map_to_list (assignments db))))).
      { apply (in_newest_first_filter newest_first newest_first_perm).
        split; [done|]. by apply Hp. }
      destruct (newest_first _); simpl in *; [done | discriminate].
  - intros k a Hhead.
    assert (Hin : In (k, a) (newest_first (List.filter p
                    (map_to_list (assignments db))))).
    { destruct (newest_first _); simpl in *; [done|]. left. congruence. }
    apply (in_newest_first_filter newest_first newest_first_perm) in Hin
      as [Hlook Hpk].
    apply Hp in Hpk as [Hdrv Hst]. done.
  - intros Hon. unfold isDriverAvailable. by rewrite Hon.
Qed.

End AvailabilityFacts.

(** X19.  Whatever the inbound message, receiveSmsWebhook leaves the store
    unchanged and answers success = false without a driver or an assignment
    id, with one of its two early-return messages: processDriverResponse is
    never reached. *)
Theorem inbound_sms_never_changes_state now payload db :
  (receiveSmsWebhook now payload db).2 = db
  ∧ WebhooksController.success (receiveSmsWebhook now payload db).1 = false
  ∧ WebhooksController.driverId (receiveSmsWebhook now payload db).1 = None
  ∧ WebhooksController.assignmentId (receiveSmsWebhook now payload db).1
    = None
  ∧ (WebhooksController.message (receiveSmsWebhook now payload db).1
     = "Unrecognized SMS response"
     ∨ WebhooksController.message (receiveSmsWebhook now payload db).1
       = "Could not process SMS response - missing IDs").
Proof.
  rewrite receiveSmsWebhook_result. simpl. repeat split.
  destruct (classify (Body payload)); auto.
Qed.

(** *** Trimming *)

Lemma is_white_space_toLowerCase_char c :
  is_white_space (toLowerCase_char c) = is_white_space c.
Proof. destruct c as [[] [] [] [] [] [] [] []]; reflexivity. Qed.

Lemma trimStart_toLowerCase s :
  trimStart (toLowerCase s) = toLowerCase (trimStart s).
Proof.
  induction s as [|c s IH]; [done|]. simpl.
  rewrite is_white_space_toLowerCase_char.
  destruct (is_white_space c); [exact IH | done].
Qed.

Lemma trimEnd_toLowerCase s :
  trimEnd (toLowerCase s) = toLowerCase (trimEnd s).
Proof.
  induction s as [|c s IH]; [done|]. simpl.
  rewrite IH, is_white_space_toLowerCase_char.
  destruct (trimEnd s); simpl; [|done].
  by destruct (is_white_space c).
Qed.

Lemma trim_toLowerCase s : trim (toLowerCase s) = toLowerCase (trim s).
Proof. unfold trim. by rewrite trimStart_toLowerCase, trimEnd_toLowerCase. Qed.

Lemma trimStart_suffix s : ∃ a, s = a +:+ trimStart s.
Proof.
  induction s as [|c s [a IH]]; [by exists ""|]. simpl.
  destruct (is_white_space c); [|by exists ""].
  exists (String c a).
  change (String c s = String c (a +:+ trimStart s)). by rewrite <- IH.
Qed.

Lemma trimEnd_prefix s : ∃ b, s = trimEnd s +:+ b.
Proof.
  induction s as [|c s [b IH]]; [by exists ""|]. simpl.
  destruct (trimEnd s) as [|d rest] eqn:E.
  - destruct (is_white_space c).
    + exists (String c s). reflexivity.
    + exists b. change (String c s = String c ("" +:+ b)). by rewrite <- IH.
  - exists b. change (String c s = String c (String d rest +:+ b)).
    by rewrite <- IH.
Qed.

Lemma trimEnd_app a b :
  trimEnd (a +:+ b)
  = if decide (trimEnd b = "") then trimEnd a else a +:+ trimEnd b.
Proof.
  induction a as [|c a IH].
  - change ("" +:+ b) with b. change ("" +:+ trimEnd b) with (trimEnd b).
    destruct (decide (trimEnd b = "")) as [Hb | _]; [by rewrite Hb|done].
  - change (String c a +:+ b) with (String c (a +:+ b)).
    cbn [trimEnd]. rewrite IH.
    destruct (decide (trimEnd b = "")) as [Hb | Hb]; [done|].
    change (String c a +:+ trimEnd b) with (String c (a +:+ trimEnd b)).
    destruct (a +:+ trimEnd b) eqn:E; [|done].
    by destruct (string_app_nonempty a (trimEnd b) Hb).
Qed.

Lemma trimStart_length s :
  (String.length (trimStart s) <= String.length s)%nat.
Proof.
  induction s as [|c s IH]; [done|]. simpl.
  destruct (is_white_space c); simpl; lia.
Qed.

Lemma includes_trimStart s k :
  solid k → includes s k = true → includes (trimStart s) k = true.
Proof.
  intros (Hstart & _ & Hne). induction s as [|d s IH]; [done|].
  simpl. destruct (is_white_space d) eqn:Hd; [|done].
  intros H. apply IH. apply orb_true_iff in H as [H | H]; [|done].
  exfalso. destruct k as [|c k]; [done|]. simpl in H.
  apply andb_true_iff in H as [H _]. apply bool_decide_eq_true in H.
  subst c. simpl in Hstart. rewrite Hd in Hstart.
  pose proof (trimStart_length k) as Hlen.
  rewrite Hstart in Hlen. simpl in Hlen. lia.
Qed.

Lemma includes_trimEnd s k :
  solid k → includes s k = true → includes (trimEnd s) k = true.
Proof.
  intros (_ & Hend & Hne). rewrite !includes_app.
  intros (pre & post & ->).
  assert (Hk : ∃ x, trimEnd (k +:+ post) = k +:+ x).
  { rewrite trimEnd_app. destruct (decide (trimEnd post = "")).
    - exists "". rewrite Hend. clear. induction k as [|c k IH]; [done|].
      change (String c k = String c (k +:+ "")). by rewrite <- IH.
    - eauto. }
  destruct Hk as [x Hx]. exists pre, x.
  rewrite trimEnd_app, Hx.
  destruct (decide (k +:+ x = "")) as [H | _]; [|done].
  destruct k; [done|discriminate H].
Qed.

Lemma includes_trim s k :
  solid k → includes (trim s) k = includes s k.
Proof.
  intros Hk. apply eq_true_iff_eq. split.
  - unfold trim. intros H.
    destruct (trimStart_suffix s) as [a Ha].
    destruct (trimEnd_prefix (trimStart s)) as [b Hb].
    apply includes_app in H as (pre & post & Hin).
    apply includes_app. exists (a +:+ pre), (post +:+ b).
    rewrite Ha, Hb, Hin. by rewrite !string_app_assoc.
  - intros H. unfold trim. by apply includes_trimEnd, includes_trimStart.
Qed.

Lemma solid_confirm : solid "confirm".
Proof. repeat split; done. Qed.

Lemma solid_reject : solid "reject".
Proof. repeat split; done. Qed.

(** X20.  A message that contains the word confirm, in any case and
    anywhere in the text, is classified as an acceptance whatever else it
    says; a message that contains reject but not confirm is classified as a
    rejection whatever else it says. *)
Theorem confirm_and_reject_words_decide payload :
  (includes (toLowerCase (Body payload)) "confirm" = true →
   intent_of (parseSmsResponse payload) = ACCEPT)
  ∧ (includes (toLowerCase (Body payload)) "confirm" = false →
     includes (toLowerCase (Body payload)) "reject" = true →
     intent_of (parseSmsResponse payload) = REJECT).
Proof.
  rewrite parseSmsResponse_classify. unfold classify.
  rewrite <- trim_toLowerCase.
  rewrite !(includes_trim _ "confirm" solid_confirm),
    !(includes_trim _ "reject" solid_reject).
  split.
  - intros ->. by rewrite orb_true_r.
  - intros Hc Hr. rewrite Hc, Hr, orb_false_r, orb_true_r.
    case_bool_decide as H1; [|done].
    exfalso.
    assert (includes (trim (toLowerCase (Body payload))) "reject" = false)
      as Hno by (rewrite H1; reflexivity).
    rewrite (includes_trim _ "reject" solid_reject) in Hno. congruence.
Qed.

Lemma blank_trimEnd w : trimStart w = "" → trimEnd w = "".
Proof.
  induction w as [|c w IH]; [done|]. simpl.
  destruct (is_white_space c); [|done]. intros H. by rewrite (IH H).
Qed.

Lemma trimStart_app_blank w s : trimStart w = "" → trimStart (w +:+ s) = trimStart s.
Proof.
  induction w as [|c w IH]; [done|]. simpl.
  change (String c w +:+ s) with (String c (w +:+ s)). simpl.
  destruct (is_white_space c); [exact IH | done].
Qed.

Lemma trimStart_app s w :
  trimStart (s +:+ w)
  = if decide (trimStart s = "") then trimStart w else trimStart s +:+ w.
Proof.
  induction s as [|c s IH]; [done|].
  change (String c s +:+ w) with (String c (s +:+ w)). simpl.
  destruct (is_white_space c); [exact IH | done].
Qed.

Lemma trim_padding w1 s w2 :
  trimStart w1 = "" → trimStart w2 = "" → trim (w1 +:+ s +:+ w2) = trim s.
Proof.
  intros H1 H2. unfold trim.
  rewrite (trimStart_app_blank w1 _ H1), trimStart_app.
  destruct (decide (trimStart s = "")) as [Hs | Hs].
  - by rewrite H2, Hs.
  - rewrite trimEnd_app, (blank_trimEnd w2 H2). done.
Qed.

(** X21.  parseSmsResponse ignores letter case and white space around the
    message: two bodies that agree up to case and up to leading and
    trailing white space are parsed alike. *)
Theorem classification_ignores_case_and_padding p1 p2 w1 w2 :
  trimStart w1 = "" →
  trimStart w2 = "" →
  toLowerCase (Body p2) = toLowerCase (w1 +:+ Body p1 +:+ w2) →
  parseSmsResponse p2 = parseSmsResponse p1.
Proof.
  intros H1 H2 Hbody.
  assert (Heq : toLowerCase (trim (Body p2)) = toLowerCase (trim (Body p1))).
  { rewrite <- trim_toLowerCase, Hbody, trim_toLowerCase.
    by rewrite trim_padding. }
  unfold parseSmsResponse. by rewrite Heq.
Qed.

Import ProviderDetection.

Lemma detectProvider_table headers :
  detectProvider headers
  = if header_set headers "twilio-sms-request-id" then "Twilio"
    else if header_set headers "x-signalwire-context"
            || header_set headers "message Sid"
            || header_set headers "message sid" then "SignalWire"
    else if header_set headers "x-twilio-signature" then "Twilio"
    else "Unknown".
Proof.
  unfold detectProvider, providerHeaders. cbn [List.find fst snd].
  change (toLowerCase "twilio-sms-request-id") with "twilio-sms-request-id".
  change (toLowerCase "x-signalwire-context") with "x-signalwire-context".
  change (toLowerCase "message Sid") with "message sid".
  change (toLowerCase "x-twilio-signature") with "x-twilio-signature".
  destruct (header_set headers "twilio-sms-request-id"); [done|].
  destruct (header_set headers "x-signalwire-context"); [done|].
  destruct (header_set headers "message Sid"); [done|].
  destruct (header_set headers "message sid"); [done|].
  destruct (header_set headers "x-twilio-signature"); done.
Qed.

(** X22.  detectProvider answers "Twilio", "SignalWire" or "Unknown"; it
    answers "Unknown" exactly when none of the headers
    twilio-sms-request-id, x-signalwire-context, message Sid (or message
    sid) and x-twilio-signature carries a value; and a SignalWire header
    outweighs a Twilio signature unless twilio-sms-request-id is
    present. *)
Theorem detectProvider_answers headers :
  (detectProvider headers = "Twilio"
   ∨ detectProvider headers = "SignalWire"
   ∨ detectProvider headers = "Unknown")
  ∧ (detectProvider headers = "Unknown"
     ↔ header_set headers "twilio-sms-request-id" = false
       ∧ header_set headers "x-signalwire-context" = false
       ∧ header_set headers "message Sid" = false
       ∧ header_set headers "message sid" = false
       ∧ header_set headers "x-twilio-signature" = false)
  ∧ (header_set headers "twilio-sms-request-id" = false →
     header_set headers "x-signalwire-context" = true
     ∨ header_set headers "message Sid" = true
     ∨ header_set headers "message sid" = true →
     detectProvider headers = "SignalWire").
Proof.
  rewrite detectProvider_table.
  destruct (header_set headers "twilio-sms-request-id");
    destruct (header_set headers "x-signalwire-context");
    destruct (header_set headers "message Sid");
    destruct (header_set headers "message sid");
    destruct (header_set headers "x-twilio-signature"); simpl;
    (split; [auto|]); (split; [|intuition congruence]);
    split; intuition congruence.
Qed.

(** ** Worked instances *)

Import MoreFixtures.

Lemma tenderLoad_blocks_further_tenders_witness :
  ∃ r db1,
    tenderLoad show_amount iso carriers 500 "t1" tender_request dispatcher
      quoted = (inr r, db1)
    ∧ ∃ e, tenderLoad show_amount iso carriers 600 "t2" tender_request
             dispatcher db1 = (inl e, db1).
Proof.
  destruct (tenderLoad show_amount iso carriers 500 "t1" tender_request
              dispatcher quoted) as [[e | r] db1] eqn:Hrun;
    [vm_compute in Hrun; discriminate Hrun|].
  exists r, db1. split; [reflexivity|].
  destruct (tenderLoad_blocks_further_tenders show_amount iso carriers 500
              "t1" tender_request dispatcher quoted r db1 Hrun carriers 600
              "t2" tender_request dispatcher eq_refl) as (e & He & _).
  eauto.
Defined.

Lemma declined_offer_leaves_shipment_tendered_witness :
  ∃ r db1,
    tenderLoad show_amount iso carriers 500 "t1" tender_request dispatcher
      quoted = (inr r, db1)
    ∧ ∃ r2 db2,
        rejectTender 600 "t1" "c1" None carrier_user db1 = (inr r2, db2)
        ∧ shipment_status <$> shipments db2 !! "s1" = Some TENDERED.
Proof.
  destruct (tenderLoad show_amount iso carriers 500 "t1" tender_request
              dispatcher quoted) as [[e | r] db1] eqn:Hrun;
    [vm_compute in Hrun; discriminate Hrun|].
  exists r, db1. split; [reflexivity|].
  destruct (declined_offer_leaves_shipment_tendered show_amount iso carriers
              500 "t1" tender_request dispatcher quoted r db1 Hrun)
    as [Hreject _].
  destruct (Hreject 600 None carrier_user) as (r2 & db2 & Hr2 & _ & Hs & _).
  eauto.
Defined.

Lemma offer_window_witness :
  ∃ r db1,
    tenderLoad show_amount iso carriers 500 "t1" tender_request dispatcher
      quoted = (inr r, db1)
    ∧ (∃ r1 db2,
         acceptTender 86400500 "t1" "c1" carrier_user db1 = (inr r1, db2)
         ∧ tender_status <$> tenders db2 !! "t1" = Some ACCEPTED)
    ∧ acceptTender 86400501 "t1" "c1" carrier_user db1
      = (inl (BadRequestException "Tender has expired"), db1).
Proof.
  destruct (tenderLoad show_amount iso carriers 500 "t1" tender_request
              dispatcher quoted) as [[e | r] db1] eqn:Hrun;
    [vm_compute in Hrun; discriminate Hrun|].
  exists r, db1. split; [reflexivity|].
  destruct (offer_window show_amount iso carriers 500 "t1" tender_request
              dispatcher quoted r db1 Hrun) as [Hin Hout].
  split.
  - apply (Hin 86400500 carrier_user). vm_compute. discriminate.
  - apply (Hout 86400501 carrier_user). reflexivity.
Defined.

Lemma accept_then_cancel_reopens_shipment_witness :
  ∃ r1 db1,
    acceptTender 500 "a" "c1" carrier_user two_offers = (inr r1, db1)
    ∧ ∃ r2 db2,
        cancelTender 600 "a" "changed plans" dispatcher db1 = (inr r2, db2)
        ∧ shipment_status <$> shipments db2 !! "s1" = Some QUOTE
        ∧ ∃ r3 db3,
            tenderLoad show_amount iso carriers 700 "t1" tender_request
              dispatcher db2 = (inr r3, db3).
Proof.
  destruct (accept_then_cancel_reopens_shipment show_amount iso 500 "a" "c1"
              carrier_user two_offers
              (tender_row "a" "s1" "c1" OFFERED 1000) 1000
              (shipment_row "s1" TENDERED None))
    as (r1 & db1 & Hr1 & Hnext);
    [reflexivity | reflexivity | reflexivity | reflexivity | lia
    | reflexivity |].
  exists r1, db1. split; [exact Hr1|].
  destruct (Hnext 600 "changed plans" dispatcher)
    as (r2 & db2 & Hr2 & _ & Hq & _ & Hagain).
  exists r2, db2. split; [exact Hr2|]. split; [exact Hq|].
  apply (Hagain carriers 700 "t1" tender_request dispatcher acme);
    reflexivity.
Defined.

Lemma unset_expiry_is_expired_witness :
  acceptTender 1 "a" "c1" carrier_user open_ended
  = (inl (BadRequestException "Tender has expired"), open_ended).
Proof.
  eapply (unset_expiry_is_expired 1 "a" "c1" carrier_user open_ended);
    [reflexivity | reflexivity | reflexivity | reflexivity | lia].
Defined.

Lemma direct_transitions_extend_audit_trail_witness :
  ∃ r db',
    cancelTender 500 "a" "changed plans" dispatcher two_offers = (inr r, db')
    ∧ auditTrail <$> tenders db' !! "a"
      = Some (Some [ offered_entry;
                     {| action := "CANCELLED"; timestamp := 500;
                        userId := Some "u1";
                        notes := Some "changed plans" |} ]).
Proof.
  destruct (cancelTender 500 "a" "changed plans" dispatcher two_offers)
    as [[e | r] db'] eqn:Hrun; [vm_compute in Hrun; discriminate Hrun|].
  exists r, db'. split; [reflexivity|].
  destruct (direct_transitions_extend_audit_trail 500 "a" dispatcher
              two_offers (tender_row "a" "s1" "c1" OFFERED 1000) eq_refl)
    as (_ & _ & Hcancel).
  exact (Hcancel "changed plans" r db' Hrun).
Defined.

Lemma acceptTender_frame_witness :
  ∃ r db',
    acceptTender 500 "a" "c1" carrier_user two_offers = (inr r, db')
    ∧ drivers db' = drivers two_offers
    ∧ assignments db' = assignments two_offers
    ∧ dom (tenders db') = dom (tenders two_offers).
Proof.
  destruct (acceptTender 500 "a" "c1" carrier_user two_offers)
    as [[e | r] db'] eqn:Hrun; [vm_compute in Hrun; discriminate Hrun|].
  exists r, db'. split; [reflexivity|].
  destruct (acceptTender_frame 500 "a" "c1" carrier_user two_offers r db'
              (tender_row "a" "s1" "c1" OFFERED 1000) Hrun eq_refl)
    as (Hd & Ha & Hdom & _).
  done.
Defined.

Lemma tender_endpoints_report_stale_columns_witness :
  ∃ answer db',
    CarriersController.acceptTender 500 "a" carrier_user two_offers
    = (inr answer, db')
    ∧ CarriersController.accept_acceptedDate (CarriersController.data answer)
      = None
    ∧ acceptedDate <$> tenders db' !! "a" = Some (Some 500).
Proof.
  destruct (CarriersController.acceptTender 500 "a" carrier_user two_offers)
    as [[e | answer] db'] eqn:Hrun; [vm_compute in Hrun; discriminate Hrun|].
  exists answer, db'. split; [reflexivity|].
  destruct (tender_endpoints_report_stale_columns 500 "a" carrier_user
              two_offers (tender_row "a" "s1" "c1" OFFERED 1000) eq_refl)
    as (Haccept & _).
  destruct (Haccept answer db' Hrun) as (_ & Hold & Hnew).
  split; [exact Hold | exact Hnew].
Defined.

Lemma driver_response_load_counter_witness :
  (∃ r db',
     processDriverResponse 500 "d1" "1" "x1" getMockUserForWebhook dispatched
     = (inr r, db')
     ∧ completedLoads <$> drivers db' !! "d1" = Some 9)
  ∧ (∃ r db',
       processDriverResponse 500 "d1" "2" "x1" getMockUserForWebhook
         dispatched = (inr r, db')
       ∧ completedLoads <$> drivers db' !! "d1" = Some 8).
Proof.
  destruct (driver_response_load_counter 500 "d1" "x1" getMockUserForWebhook
              dispatched (assignment_row "x1" "s1" "d1" DISPATCHED)
              (driver_row "d1" ON_LOAD (Some 9000) 8)
              eq_refl eq_refl eq_refl eq_refl)
    as [(r1 & db1 & Hr1 & _ & Hc1 & _) (r2 & db2 & Hr2 & _ & Hc2 & _)].
  split; [exists r1, db1 | exists r2, db2]; split; assumption.
Defined.

Lemma processDriverResponse_effect_witness :
  ∃ r db',
    processDriverResponse 500 "d1" "1" "x1" getMockUserForWebhook dispatched
    = (inr r, db')
    ∧ tenders db' = tenders dispatched
    ∧ communicationLog <$> assignments db' !! "x1"
      = Some (Some [ SMS_SENT 100 "+15550100" "pending";
                     SMS_RESPONSE 500 "1" "webhook-processor" "processed" ]).
Proof.
  destruct (processDriverResponse 500 "d1" "1" "x1" getMockUserForWebhook
              dispatched) as [[e | r] db'] eqn:Hrun;
    [vm_compute in Hrun; discriminate Hrun|].
  exists r, db'. split; [reflexivity|].
  destruct (processDriverResponse_effect 500 "d1" "1" "x1"
              getMockUserForWebhook dispatched r db'
              (assignment_row "x1" "s1" "d1" DISPATCHED) Hrun eq_refl)
    as (Ht & _ & _ & _ & Hlog & _).
  split; [exact Ht | exact Hlog].
Defined.

Lemma findAssignment_needs_matching_shipment_id_witness :
  assignment_shipmentId <$> assignments dispatched !! "x1" = Some "s1"
  ∧ findAssignment as_stored "x1" dispatched
    = {| fa_success := false; fa_message := Some "Assignment not found";
         fa_data := None |}.
Proof.
  split; [reflexivity|].
  apply (findAssignment_needs_matching_shipment_id as_stored
           (λ l, Permutation_refl l) "x1" dispatched).
  intros a Ha. vm_compute in Ha. injection Ha as <-. discriminate.
Defined.


Lemma availability_report_grounds_witness :
  ∃ report,
    getDriverAvailability as_stored 500 "d1" booked_lapsed = inr report
    ∧ da_isAvailable report = false.
Proof.
  destruct (availability_report_grounds as_stored 500 "d1" booked_lapsed
              (driver_row "d1" ACTIVE (Some 100) 7) eq_refl)
    as (report & Hreport & Hgrounds).
  exists report. split; [exact Hreport|].
  apply Hgrounds. right; left. exists 100. split; [reflexivity | lia].
Defined.

Lemma availability_report_current_assignment_witness :
  ∃ report,
    getDriverAvailability as_stored 500 "d1" dispatched = inr report
    ∧ da_currentAssignment report ≠ None
    ∧ da_isAvailable report = false.
Proof.
  destruct (availability_report_current_assignment as_stored
              (λ l, Permutation_refl l) 500 "d1" dispatched
              (driver_row "d1" ON_LOAD (Some 9000) 8) eq_refl)
    as (report & Hreport & Hnone & _ & Hbusy).
  exists report. split; [exact Hreport|]. split.
  - intros Hno.
    destruct (proj1 Hnone Hno "x1" (assignment_row "x1" "s1" "d1" DISPATCHED)
                eq_refl eq_refl) as [Hd _].
    apply Hd. reflexivity.
  - apply Hbusy. reflexivity.
Defined.

Lemma classification_ignores_case_and_padding_witness :
  parseSmsResponse (sms "+15550100" "  YES  ")
  = parseSmsResponse (sms "+15550100" "yes").
Proof.
  apply (classification_ignores_case_and_padding
           (sms "+15550100" "yes") (sms "+15550100" "  YES  ") "  " "  ");
    reflexivity.
Defined.
